(** * PLUMED task-graph engine: two client operations

    Shallow embedding of [src/symfunc/Tetrahedral.cpp] and
    [src/gridtools/EvaluateFunctionOnGrid.cpp].

    Numbers of C++ type [double] are kept abstract behind the [Scalar]
    interface, so that each source expression is written once, with the
    operator order of the source.  The interface is instantiated twice:
    by the real numbers (the exact meaning of the formulas, used for the
    algebraic and differential properties) and by IEEE binary64 numbers
    (used to evaluate the code on concrete inputs).  C++ [unsigned] values
    are integers of [Z]; where the sources compute with them, the result is
    taken modulo [2^32]. *)

From Stdlib Require Import PrimFloat.
From Stdlib Require Uint63.
From Stdlib Require Import ZArith List String Ascii Bool Lia.
From Stdlib Require Import Reals Lra.
From stdpp Require Import base option list gmap.

Import ListNotations.
Open Scope Z_scope.

(** ** Scalars *)

Class Scalar (D : Type) := {
  sadd  : D -> D -> D;
  ssub  : D -> D -> D;
  smul  : D -> D -> D;
  sdiv  : D -> D -> D;
  sneg  : D -> D;
  ssqrt : D -> D;
  spow  : D -> nat -> D;   (* std::pow with a small integer exponent *)
  sint  : Z -> D           (* implicit conversion of an int literal *)
}.

Declare Scope scalar_scope.
Delimit Scope scalar_scope with D.
Infix "+" := sadd : scalar_scope.
Infix "-" := ssub : scalar_scope.
Infix "*" := smul : scalar_scope.
Infix "/" := sdiv : scalar_scope.
Notation "- x" := (sneg x) : scalar_scope.

#[export] Instance R_scalar : Scalar R := {
  sadd := Rplus; ssub := Rminus; smul := Rmult; sdiv := Rdiv;
  sneg := Ropp; ssqrt := R_sqrt.sqrt; spow := pow; sint := IZR
}.

(** [std::pow] belongs to the C++ library, which does not fix its rounding.
    For binary64 numbers its integer powers are computed here by repeated
    multiplication.  The two agree where the power is exact (at 0, at 1
    and -1, on small integers) and where it overflows to an infinity or
    underflows to 0; elsewhere they may differ in the last bits, so that
    a binary64 evaluation at another input stands for the code up to such
    a difference. *)
Fixpoint fpow (x : PrimFloat.float) (n : nat) : PrimFloat.float :=
  match n with
  | O => PrimFloat.one
  | S m => PrimFloat.mul x (fpow x m)
  end.

#[export] Instance binary64_scalar : Scalar PrimFloat.float := {
  sadd := PrimFloat.add; ssub := PrimFloat.sub; smul := PrimFloat.mul;
  sdiv := PrimFloat.div; sneg := PrimFloat.opp; ssqrt := PrimFloat.sqrt;
  spow := fpow; sint := fun z => PrimFloat.of_uint63 (Uint63.of_Z z)
}.

(** ** Vectors of three scalars ([PLMD::Vector]) *)

Record Vector (D : Type) := mkVector { v0 : D; v1 : D; v2 : D }.
Arguments mkVector {D} _ _ _.
Arguments v0 {D} _.
Arguments v1 {D} _.
Arguments v2 {D} _.

Section VectorOps.
Context {D : Type} `{Scalar D}.
Local Open Scope scalar_scope.

(** [v[i]] for the literal indices the sources use. *)
Definition vidx (v : Vector D) (i : nat) : D :=
  match i with
  | O => v0 v
  | S O => v1 v
  | _ => v2 v
  end.

(** Modelled from the spec: [Vector::modulo] is declared outside the
    two source files; the spec gives r = sqrt(x^2+y^2+z^2). *)
Definition modulo (v : Vector D) : D :=
  ssqrt (vidx v 0 * vidx v 0 + vidx v 1 * vidx v 1 + vidx v 2 * vidx v 2).

(** [double * Vector] *)
Definition vscale (a : D) (v : Vector D) : Vector D :=
  mkVector (a * v0 v) (a * v1 v) (a * v2 v).

(** Unary minus on a vector. *)
Definition vopp (v : Vector D) : Vector D :=
  mkVector (- v0 v) (- v1 v) (- v2 v).
End VectorOps.

(** ** The per-task scratch buffer ([MultiValue]) *)

(** Modelled from the spec: [MultiValue] is declared outside the two source
    files.  It holds the value of every output stream and a sparse map from
    (output stream index, argument slot index) to a partial derivative. *)
Record MultiValue (D : Type) := mkMultiValue {
  values : list D;
  derivatives : gmap (Z * Z) D
}.
Arguments mkMultiValue {D} _ _.
Arguments values {D} _.
Arguments derivatives {D} _.

Module MV.
Section Methods.
Context {D : Type} `{Scalar D}.
Local Open Scope scalar_scope.

(** Modelled from the spec: [MultiValue::addValue] accumulates into the
    value of stream [ival]; a stream index out of range is left alone
    here (the source does not check it). *)
Definition addValue (ival : Z) (val : D) (myvals : MultiValue D) : MultiValue D :=
  mkMultiValue (alter (fun v => v + val) (Z.to_nat ival) (values myvals))
               (derivatives myvals).

(** Modelled from the spec: [MultiValue::addDerivative] accumulates into
    slot [jder] of stream [ival]. *)
Definition addDerivative (ival jder : Z) (der : D) (myvals : MultiValue D) : MultiValue D :=
  mkMultiValue (values myvals)
               (partial_alter
                  (fun o => Some (match o with Some d => d + der | None => der end))
                  (ival, jder) (derivatives myvals)).
End Methods.
End MV.

(** ** [Tetrahedral::compute] *)

Module Tetrahedral.
Section Compute.
Context {D : Type} `{Scalar D}.
Local Open Scope scalar_scope.

(** Helpers inherited from [SymmetryFunctionBase], which is outside the
    two source files: they only move the computed numbers into the
    scratch buffer. *)
Variable addToValue : Z -> D -> MultiValue D -> MultiValue D.
Variable addWeightDerivative : Z -> D -> MultiValue D -> MultiValue D.
Variable addVectorDerivatives : Z -> Vector D -> MultiValue D -> MultiValue D.

Section Locals.
Variable distance : Vector D.

Definition sp1 : D := vidx distance 0 + vidx distance 1 + vidx distance 2.
Definition sp2 : D := vidx distance 0 - vidx distance 1 - vidx distance 2.
Definition sp3 : D := - vidx distance 0 + vidx distance 1 - vidx distance 2.
Definition sp4 : D := - vidx distance 0 - vidx distance 1 + vidx distance 2.

Definition sp1c : D := spow sp1 3.
Definition sp2c : D := spow sp2 3.
Definition sp3c : D := spow sp3 3.
Definition sp4c : D := spow sp4 3.

Definition d1 : D := modulo distance.
Definition r3 : D := spow d1 3.
Definition r5 : D := spow d1 5.

Definition tmp : D := sp1c / r3 + sp2c / r3 + sp3c / r3 + sp4c / r3.

Definition t1 : D := (sint 3 * sp1c) / r5.
Definition tt1 : D := (sint 3 * sp1 * sp1) / r3.
Definition t2 : D := (sint 3 * sp2c) / r5.
Definition tt2 : D := (sint 3 * sp2 * sp2) / r3.
Definition t3 : D := (sint 3 * sp3c) / r5.
Definition tt3 : D := (sint 3 * sp3 * sp3) / r3.
Definition t4 : D := (sint 3 * sp4c) / r5.
Definition tt4 : D := (sint 3 * sp4 * sp4) / r3.

Definition myder : Vector D :=
  mkVector
    ((tt1 - (vidx distance 0 * t1)) + (tt2 - (vidx distance 0 * t2))
     + (- tt3 - (vidx distance 0 * t3)) + (- tt4 - (vidx distance 0 * t4)))
    ((tt1 - (vidx distance 1 * t1)) + (- tt2 - (vidx distance 1 * t2))
     + (tt3 - (vidx distance 1 * t3)) + (- tt4 - (vidx distance 1 * t4)))
    ((tt1 - (vidx distance 2 * t1)) + (- tt2 - (vidx distance 2 * t2))
     + (- tt3 - (vidx distance 2 * t3)) + (tt4 - (vidx distance 2 * t4))).
End Locals.

Definition compute (val : D) (distance : Vector D) (myvals : MultiValue D)
  : MultiValue D :=
  let myvals := addToValue 0 (val * tmp distance) myvals in
  let myvals := addWeightDerivative 0 (tmp distance) myvals in
  addVectorDerivatives 0 (vscale val (myder distance)) myvals.
End Compute.
End Tetrahedral.

(** ** Construction results *)

(** [Action::error] aborts the construction with a configuration error; an
    access past the end of a [std::vector] has no defined outcome. *)
Inductive Result (A : Type) : Type :=
| Ok (a : A)
| ConfigurationError (msg : string)
| Undefined.
Arguments Ok {A} _.
Arguments ConfigurationError {A} _.
Arguments Undefined {A}.

(** C++ [unsigned] arithmetic. *)
Definition u32 (z : Z) : Z := z mod 2 ^ 32.

(** [v[i]] on a [std::vector]. *)
Definition vector_at {A : Type} (v : list A) (i : nat) : Result A :=
  match v !! i with
  | Some x => Ok x
  | None => Undefined
  end.

(** Does [msg] contain [needle]? *)
Definition mentions (needle msg : string) : bool :=
  match String.index 0 needle msg with
  | Some _ => true
  | None => false
  end.

(** Modelled from the spec: [Value] is declared outside the two source
    files.  A ValueNode has a name and a shape, the ordered sequence of its
    dimension sizes; its rank is the number of dimensions. *)
Record Value := mkValue {
  getName : string;
  getShape : list Z
}.

Definition getRank (v : Value) : Z := Z.of_nat (length (getShape v)).

(** ** [EvaluateFunctionOnGrid] *)

Module EvaluateFunctionOnGrid.

(** What [getInfoForGridHeader] reports about the upstream grid. *)
Record GridHeader (D : Type) := mkGridHeader {
  gtype : string;
  argn : list string;
  gmin : list string;
  gmax : list string;
  nbin : list Z;
  spacing : list D;
  pbc : list bool
}.
Arguments mkGridHeader {D} _ _ _ _ _ _ _.
Arguments gtype {D} _.
Arguments argn {D} _.
Arguments gmin {D} _.
Arguments gmax {D} _.
Arguments nbin {D} _.
Arguments spacing {D} _.
Arguments pbc {D} _.

(** The metadata of the interpolation grid that the one-time setup derives. *)
Record GridObject (D : Type) := mkGridObject {
  grid_shape : list Z;
  grid_spacing : list D;
  grid_periodicity : list bool
}.
Arguments mkGridObject {D} _ _ _.
Arguments grid_shape {D} _.
Arguments grid_spacing {D} _.
Arguments grid_periodicity {D} _.

(** An output value owned by the action. *)
Record Output := mkOutput {
  out_shape : list Z;
  hasDerivatives : bool;
  periodic : option bool;
  getPositionInStream : Z
}.

(** The state of the action object: the members it inherits from
    [ActionWithInputGrid] and its bases, and its own [nderivatives]. *)
Record Action (D : Type) := mkAction {
  arguments : list Value;
  arg_ends : list Z;
  distinct_arguments : list string;
  outputs : list Output;
  fullTaskList : list Z;
  doNotCalculateDerivatives : bool;
  firststep : bool;
  gridobject : option (GridObject D);
  log : list string;
  nderivatives : Z
}.
Arguments mkAction {D} _ _ _ _ _ _ _ _ _ _.
Arguments arguments {D} _.
Arguments arg_ends {D} _.
Arguments distinct_arguments {D} _.
Arguments outputs {D} _.
Arguments fullTaskList {D} _.
Arguments doNotCalculateDerivatives {D} _.
Arguments firststep {D} _.
Arguments gridobject {D} _.
Arguments log {D} _.
Arguments nderivatives {D} _.

(** The collaborators of the action that live outside the two source
    files; each is a parameter of the model. *)
Record External (D : Type) := mkExternal {
  getInfoForGridHeader : Value -> GridHeader D;
  interpretArgumentList : list string -> list Value;
  distinctArgumentsOf : list Value -> list string;
  createTasksFromArguments : list Value -> list Z;
  setupActionInChain : list Value -> Z -> Z;
  retrieveArguments : Action D -> MultiValue D -> Z -> Z -> list D;
  getFunctionValueAndDerivatives : Action D -> list D -> D * list D
}.
Arguments mkExternal {D} _ _ _ _ _ _ _.
Arguments getInfoForGridHeader {D} _ _.
Arguments interpretArgumentList {D} _ _.
Arguments distinctArgumentsOf {D} _ _.
Arguments createTasksFromArguments {D} _ _.
Arguments setupActionInChain {D} _ _ _.
Arguments retrieveArguments {D} _ _ _ _ _.
Arguments getFunctionValueAndDerivatives {D} _ _ _.

(** The options of the action, already parsed into typed fields. *)
Record ActionOptions := mkActionOptions {
  ARG : list Value;
  NODERIV : bool
}.

Section Model.
Context {D : Type}.

(** *** A state and error monad for the member functions *)

Definition M (A : Type) : Type := Action D -> Result (A * Action D).

Definition ret {A : Type} (a : A) : M A := fun s => Ok (a, s).

Definition bind {A B : Type} (m : M A) (k : A -> M B) : M B :=
  fun s =>
    match m s with
    | Ok (a, s') => k a s'
    | ConfigurationError msg => ConfigurationError msg
    | Undefined => Undefined
    end.

(** Modelled from the spec: [Action::error] is outside the two source
    files.  A configuration error is fatal to the construction: nothing of
    the object under construction is kept. *)
Definition error {A : Type} (msg : string) : M A :=
  fun _ => ConfigurationError msg.

Definition lift {A : Type} (r : Result A) : M A :=
  fun s =>
    match r with
    | Ok a => Ok (a, s)
    | ConfigurationError msg => ConfigurationError msg
    | Undefined => Undefined
    end.

Definition gets {A : Type} (f : Action D -> A) : M A := fun s => Ok (f s, s).

Definition modify (f : Action D -> Action D) : M unit := fun s => Ok (tt, f s).

(** [if (c) error(msg);] *)
Definition error_if (c : bool) (msg : string) : M unit :=
  if c then error msg else ret tt.

Fixpoint for_ {A : Type} (l : list A) (body : A -> M unit) : M unit :=
  match l with
  | [] => ret tt
  | x :: l' => bind (body x) (fun _ => for_ l' body)
  end.
End Model.
Arguments M D A : clear implicits.

Notation "x <- m ;; k" := (bind m (fun x => k))
  (at level 100, m at next level, right associativity).
Notation "m ;;; k" := (bind m (fun _ => k))
  (at level 100, right associativity).

Section Members.
Context {D : Type} `{Scalar D}.
Variable ext : External D.

(** *** Inherited member functions

    The base classes are outside the two source files; their members are
    modelled from the spec as reading or replacing one field of the
    state. *)

(** Modelled from the spec: the base constructor [ActionWithInputGrid(ao)]
    is outside the two source files.  It leaves the resolved [ARG] values
    as the argument list and [firststep] true. *)
Definition ActionWithInputGrid (ao : ActionOptions) : Action D :=
  mkAction (ARG ao) [] [] [] [] (NODERIV ao) true None [] 0.

(** Modelled from the spec: the [i]-th input ValueNode of the ordered
    argument list. *)
Definition getPntrToArgument (i : nat) : M D Value :=
  s <- gets arguments ;; lift (vector_at s i).

(** Modelled from the spec: the [i]-th owned output ValueNode. *)
Definition getPntrToOutput (s : Action D) (i : nat) : Result Output :=
  vector_at (outputs s) i.

(** Modelled from the spec: the Operation's own argument count. *)
Definition getNumberOfArguments (s : Action D) : Z :=
  Z.of_nat (length (arguments s)).

(** Field updates of the object. *)
Definition put_arguments (v : list Value) (d : list string) (s : Action D) : Action D :=
  mkAction v (arg_ends s) d (outputs s)
    (fullTaskList s) (doNotCalculateDerivatives s) (firststep s)
    (gridobject s) (log s) (nderivatives s).

Definition put_arg_ends (v : list Z) (s : Action D) : Action D :=
  mkAction (arguments s) v (distinct_arguments s) (outputs s)
    (fullTaskList s) (doNotCalculateDerivatives s) (firststep s)
    (gridobject s) (log s) (nderivatives s).

Definition put_outputs (v : list Output) (s : Action D) : Action D :=
  mkAction (arguments s) (arg_ends s) (distinct_arguments s) v
    (fullTaskList s) (doNotCalculateDerivatives s) (firststep s)
    (gridobject s) (log s) (nderivatives s).

Definition put_fullTaskList (v : list Z) (s : Action D) : Action D :=
  mkAction (arguments s) (arg_ends s) (distinct_arguments s) (outputs s)
    v (doNotCalculateDerivatives s) (firststep s)
    (gridobject s) (log s) (nderivatives s).

Definition put_gridobject (g : GridObject D) (s : Action D) : Action D :=
  mkAction (arguments s) (arg_ends s) (distinct_arguments s) (outputs s)
    (fullTaskList s) (doNotCalculateDerivatives s) false
    (Some g) (log s) (nderivatives s).

Definition put_log (v : list string) (s : Action D) : Action D :=
  mkAction (arguments s) (arg_ends s) (distinct_arguments s) (outputs s)
    (fullTaskList s) (doNotCalculateDerivatives s) (firststep s)
    (gridobject s) v (nderivatives s).

Definition put_nderivatives (n : Z) (s : Action D) : Action D :=
  mkAction (arguments s) (arg_ends s) (distinct_arguments s) (outputs s)
    (fullTaskList s) (doNotCalculateDerivatives s) (firststep s)
    (gridobject s) (log s) n.

(** [arg_ends.resize(0)] followed by the [push_back]s of lines 56-57. *)
Definition set_arg_ends (v : list Z) : M D unit := modify (put_arg_ends v).

(** [log.printf]: one more piece of text on the diagnostic sink. *)
Definition log_printf (line : string) : M D unit :=
  modify (fun s => put_log (log s ++ [line]) s).

(** Modelled from the spec: [requestArguments] replaces the argument list
    and records which upstream arguments are shared. *)
Definition requestArguments (req_arg : list Value) : M D unit :=
  modify (put_arguments req_arg (distinctArgumentsOf ext req_arg)).

Definition push_output (o : Output) : M D unit :=
  modify (fun s => put_outputs (outputs s ++ [o]) s).

(** Modelled from the spec: a new output ValueNode of the given shape,
    stored with its derivatives. *)
Definition addValueWithDerivatives (shape : list Z) : M D unit :=
  push_output (mkOutput shape true None 0).

(** Modelled from the spec: a new output ValueNode of the given shape. *)
Definition addValue (shape : list Z) : M D unit :=
  push_output (mkOutput shape false None 0).

(** Modelled from the spec: clears the periodicity flag of the output. *)
Definition setNotPeriodic : M D unit :=
  modify (fun s =>
    put_outputs
      (alter (fun o => mkOutput (out_shape o) (hasDerivatives o) (Some false)
                         (getPositionInStream o)) 0%nat (outputs s)) s).

(** [createTasksFromArguments()]: the task list is supplied from outside. *)
Definition createTasks : M D unit :=
  modify (fun s => put_fullTaskList (createTasksFromArguments ext (arguments s)) s).

Definition set_nderivatives (n : Z) : M D unit := modify (put_nderivatives n).

(** Modelled from the spec: [setupGridObject] is outside the two source
    files.  It derives the shape, spacing and periodicity of the grid from
    the header of the upstream action and flips [firststep] to false. *)
Definition setupGridObject : M D unit :=
  gval <- getPntrToArgument 0 ;;
  let hdr := getInfoForGridHeader ext gval in
  modify (put_gridobject (mkGridObject (nbin hdr) (spacing hdr) (pbc hdr))).

(** *** The constructor (lines 45-87) *)

(** Lines 61-66: every argument is compared with the first one, first by
    rank and then dimension by dimension. *)
Definition check_dimension (argv : list Value) (i j : nat) : M D unit :=
  a0 <- lift (vector_at argv 0) ;;
  ai <- lift (vector_at argv i) ;;
  x <- lift (vector_at (getShape a0) j) ;;
  y <- lift (vector_at (getShape ai) j) ;;
  error_if (negb (x =? y)) "mismatched shapes for arguments".

Definition check_argument (argv : list Value) (i : nat) : M D unit :=
  a0 <- lift (vector_at argv 0) ;;
  ai <- lift (vector_at argv i) ;;
  error_if (negb (getRank a0 =? getRank ai)) "mismatched ranks for arguments" ;;;
  a0 <- lift (vector_at argv 0) ;;
  for_ (seq 0 (Z.to_nat (getRank a0))) (check_dimension argv i).

Definition check_arguments (argv : list Value) : M D unit :=
  for_ (seq 1 (length argv - 1)) (check_argument argv).

Definition constructor_body : M D unit :=
  gval <- getPntrToArgument 0 ;;
  let hdr := getInfoForGridHeader ext gval in
  error_if (String.eqb (gtype hdr) "fibonacci")
    "cannot interpolate on fibonacci sphere" ;;;
  (* Arg ends must be setup once more *)
  set_arg_ends
    (1 :: map (fun i => u32 (2 + Z.of_nat i)) (seq 0 (Z.to_nat (getRank gval)))) ;;;
  (* Retreive values with these arguments *)
  let argv := interpretArgumentList ext (argn hdr) in
  (* Now check that arguments make sense *)
  check_arguments argv ;;;
  (* Now re-request the arguments *)
  g0 <- getPntrToArgument 0 ;;
  log_printf "  arguments for grid are" ;;;
  for_ argv (fun a => log_printf (" " ++ getName a)) ;;;
  log_printf (String (ascii_of_nat 10) "") ;;;
  requestArguments (g0 :: argv) ;;;
  (* Create value for this function: shape is a copy of argv[0]'s shape *)
  a0 <- lift (vector_at argv 0) ;;
  let shape := getShape a0 in
  (if (length shape =? 0)%nat then addValueWithDerivatives shape
   else addValue shape) ;;;
  setNotPeriodic ;;;
  (* Make a task list *)
  createTasks ;;;
  (* Get the number of derivatives *)
  n <- gets getNumberOfArguments ;;
  set_nderivatives n ;;;
  da <- gets distinct_arguments ;;
  if (0 <? length da)%nat
  then args <- gets arguments ;; set_nderivatives (setupActionInChain ext args 1)
  else ret tt.

(** Construction either yields the finished object or fails; nothing of a
    failed construction remains. *)
Definition EvaluateFunctionOnGrid (ao : ActionOptions) : Result (Action D) :=
  match constructor_body (ActionWithInputGrid ao) with
  | Ok (_, s) => Ok s
  | ConfigurationError msg => ConfigurationError msg
  | Undefined => Undefined
  end.

(** *** [prepareForTasks] (lines 89-91) *)

Definition prepareForTasks (nactive : Z) (pTaskList : list Z) : M D unit :=
  firststep <- gets firststep ;;
  if firststep then setupGridObject else ret tt.

(** *** [performTask] (lines 93-102); the object itself is not modified *)

Definition performTask (s : Action D) (current : Z) (myvals : MultiValue D)
  : Result (MultiValue D) :=
  let nargs := u32 (getNumberOfArguments s - 1) in
  match getPntrToOutput s 0 with
  | Ok out =>
      let ostrn := getPositionInStream out in
      let args := retrieveArguments ext s myvals nargs 1 in
      (* Evaluate function *)
      let '(func, der) := getFunctionValueAndDerivatives ext s args in
      let myvals := MV.addValue ostrn func myvals in
      (* And derivatives *)
      if doNotCalculateDerivatives s then Ok myvals
      else
        (* Set the final derivatives: the loop over addDerivative is
           commented out in the source *)
        Ok myvals
  | ConfigurationError msg => ConfigurationError msg
  | Undefined => Undefined
  end.
End Members.
End EvaluateFunctionOnGrid.

(** ** Notions used to state the properties *)

Section Differences.
Context {D : Type} `{Scalar D}.
Local Open Scope scalar_scope.

(** The central-difference estimates of the three partial derivatives,
    with step [h]. *)
Definition central_difference (f : Vector D -> D) (d : Vector D) (h : D)
  : Vector D :=
  mkVector
    ((f (mkVector (v0 d + h) (v1 d) (v2 d))
      - f (mkVector (v0 d - h) (v1 d) (v2 d))) / (sint 2 * h))
    ((f (mkVector (v0 d) (v1 d + h) (v2 d))
      - f (mkVector (v0 d) (v1 d - h) (v2 d))) / (sint 2 * h))
    ((f (mkVector (v0 d) (v1 d) (v2 d + h))
      - f (mkVector (v0 d) (v1 d) (v2 d - h))) / (sint 2 * h)).
End Differences.

Section Calculus.
Local Open Scope R_scope.

(** The partial derivatives of a function of a vector, and its gradient. *)
Definition partial_x (f : Vector R -> R) (d : Vector R) (l : R) : Prop :=
  derivable_pt_lim (fun t => f (mkVector t (v1 d) (v2 d))) (v0 d) l.

Definition partial_y (f : Vector R -> R) (d : Vector R) (l : R) : Prop :=
  derivable_pt_lim (fun t => f (mkVector (v0 d) t (v2 d))) (v1 d) l.

Definition partial_z (f : Vector R -> R) (d : Vector R) (l : R) : Prop :=
  derivable_pt_lim (fun t => f (mkVector (v0 d) (v1 d) t)) (v2 d) l.

Definition is_gradient (f : Vector R -> R) (d g : Vector R) : Prop :=
  partial_x f d (v0 g) /\ partial_y f d (v1 g) /\ partial_z f d (v2 g).

(** The per-neighbour function as the documentation of the action and the
    spec write it:
    f(x,y,z) = ((x+y+z)^3 + (x-y-z)^3 + (-x+y-z)^3 + (-x-y+z)^3) / r^3
    with r = sqrt(x^2+y^2+z^2). *)
Definition tetrahedral_formula (d : Vector R) : R :=
  let x := v0 d in
  let y := v1 d in
  let z := v2 d in
  ((x + y + z) ^ 3 + (x - y - z) ^ 3 + (- x + y - z) ^ 3 + (- x - y + z) ^ 3)
  / sqrt (x ^ 2 + y ^ 2 + z ^ 2) ^ 3.

Definition unit_x : Vector R := mkVector 1 0 0.
End Calculus.

Definition unit_x64 : Vector float := mkVector 1%float 0%float 0%float.

(** A sample distance off the axes, a step and a tolerance for binary64
    evaluations; the tolerance [2^-20] is below [1e-6]. *)
Definition sample64 : Vector float := mkVector 1%float 2%float 3%float.

Definition step64 : float := 0x1p-20%float.

Definition within64 (a b : float) : bool :=
  PrimFloat.ltb (PrimFloat.abs (PrimFloat.sub a b)) 0x1p-20%float.

Section Construction.
Import EvaluateFunctionOnGrid.
Context {D : Type}.

(** The message of the first failing comparison of lines 61-66, if any. *)
Fixpoint first_mismatch (a0 : Value) (rest : list Value) : option string :=
  match rest with
  | [] => None
  | ai :: rest' =>
      if negb (getRank a0 =? getRank ai)
      then Some "mismatched ranks for arguments"%string
      else if decide (getShape a0 = getShape ai)
           then first_mismatch a0 rest'
           else Some "mismatched shapes for arguments"%string
  end.

(** The object a successful construction leaves behind: [gval] is the grid
    argument and [a0 :: rest] are the values named by the grid header. *)
Definition constructed (ext : External D) (ao : ActionOptions)
    (gval a0 : Value) (rest : list Value) : Action D :=
  let req_arg := gval :: a0 :: rest in
  let da := distinctArgumentsOf ext req_arg in
  mkAction req_arg
    (1 :: map (fun i => u32 (2 + Z.of_nat i)) (seq 0 (Z.to_nat (getRank gval))))
    da
    [mkOutput (getShape a0) (length (getShape a0) =? 0)%nat (Some false) 0]
    (createTasksFromArguments ext req_arg)
    (NODERIV ao) true None
    ("  arguments for grid are"%string
       :: map (fun a => (" " ++ getName a)%string) (a0 :: rest)
       ++ [String (ascii_of_nat 10) ""])
    (if (0 <? length da)%nat then setupActionInChain ext req_arg 1
     else Z.of_nat (length req_arg)).

(** Two of the values differ in shape. *)
Definition shapes_differ (argv : list Value) : Prop :=
  exists (i j : nat) (a b : Value),
    argv !! i = Some a /\ argv !! j = Some b /\ getShape a <> getShape b.

(** All the values have the same rank. *)
Definition same_ranks (argv : list Value) : Prop :=
  forall a b : Value, In a argv -> In b argv -> getRank a = getRank b.

(** The construction fails with a configuration error whose message
    contains [needle]. *)
Definition fails_mentioning {A : Type} (r : Result A) (needle : string) : Prop :=
  exists msg : string, r = ConfigurationError msg /\ mentions needle msg = true.
End Construction.

(** ** Sample inputs *)

Module Samples.
Import EvaluateFunctionOnGrid.

(** Collaborators that report a grid of type [gt] over the values [argv],
    that find the upstream arguments [distinct] to be shared, and whose
    interpolation returns the value [func] with the derivatives [der]. *)
Definition external (gt : string) (argv : list Value) (distinct : list string)
    (func : float) (der : list float) : External float :=
  mkExternal
    (fun _ => mkGridHeader gt (map getName argv) [] [] [] [] [])
    (fun _ => argv)
    (fun _ => distinct)
    (fun _ => seqZ 0 10)
    (fun _ _ => 7)
    (fun _ _ n _ => replicate (Z.to_nat n) 0%float)
    (fun _ _ => (func, der)).

Definition grid : Value := mkValue "grid" [50; 50].

Definition options : ActionOptions := mkActionOptions [grid] false.

Definition d1 : Value := mkValue "d1" [10].
Definition d2 : Value := mkValue "d2" [12].
Definition d3 : Value := mkValue "d3" [10].
Definition m1 : Value := mkValue "m1" [10; 3].
Definition m2 : Value := mkValue "m2" [10; 4].

(** A scalar argument, for which the output carries derivatives. *)
Definition x1 : Value := mkValue "x1" [].

Definition interpolation : External float :=
  external "flat" [x1] [] 1.5%float [2%float].

Definition fresh : MultiValue float := mkMultiValue [0%float] ∅.
End Samples.

(** ** [Tetrahedral::expandShortcut] *)

Module TetrahedralShortcut.
Section Shortcut.

(** The two expansions that [expandShortcut] delegates to are outside the
    two source files; each maps the list of action lines to a new one. *)
Variable expandMatrix :
  bool -> string -> list string -> gmap string string ->
  list (list string) -> list (list string).
Variable expandFunctions :
  string -> string -> string -> list string -> gmap string string ->
  list (list string) -> list (list string).

(** Lines 99-101. *)
Definition input (lab : string) : list string :=
  [ (lab ++ ":")%string; "TETRAHEDRAL"%string;
    ("WEIGHT=" ++ lab ++ "_mat.w")%string;
    ("VECTORS1=" ++ lab ++ "_mat.x")%string;
    ("VECTORS2=" ++ lab ++ "_mat.y")%string;
    ("VECTORS3=" ++ lab ++ "_mat.z")%string ].

(** Lines 104-105: input for denominator (coord). *)
Definition d_input (lab : string) : list string :=
  [ (lab ++ "_denom:")%string; "COORDINATIONNUMBER"%string;
    ("WEIGHT=" ++ lab ++ "_mat.w")%string ].

(** Lines 107-109: input for matheval action. *)
Definition me_input (lab : string) : list string :=
  [ (lab ++ "_n:")%string; "MATHEVAL"%string;
    ("ARG1=" ++ lab)%string; ("ARG2=" ++ lab ++ "_denom")%string;
    "FUNC=x/y"%string; "PERIODIC=NO"%string ].

Definition expandShortcut (lab : string) (words : list string)
    (keys : gmap string string) (actions : list (list string))
  : list (list string) :=
  let actions := expandMatrix true lab words keys actions in
  let actions := actions ++ [input lab] in
  let actions := actions ++ [d_input lab] in
  let actions := actions ++ [me_input lab] in
  expandFunctions lab (lab ++ "_n")%string ""%string words keys actions.
End Shortcut.

(** The label that an action line defines: its first word without the
    closing colon. *)
Fixpoint strip_colon (w : string) : option string :=
  match w with
  | EmptyString => None
  | String c EmptyString =>
      if Ascii.eqb c ":"%char then Some EmptyString else None
  | String c w' => option_map (String c) (strip_colon w')
  end.

Definition action_label (line : list string) : option string :=
  match line with
  | w :: _ => strip_colon w
  | [] => None
  end.
End TetrahedralShortcut.

(** The body diagonal, the direction of a tetrahedral neighbour. *)
Definition diagonal : Vector R := mkVector 1%R 1%R 1%R.

(** A distance off the coordinate planes and off the diagonals. *)
Definition sample_distance : Vector R := mkVector 1%R 2%R 3%R.

(** Two binary64 distances with a nonzero modulus: [tiny64] is so short
    that the fifth power of its modulus underflows to 0, [huge64] so long
    that the squares of its components overflow. *)
Definition tiny64 : Vector float :=
  mkVector 0x1p-350%float 0x1p-349%float 0x1.8p-349%float.

Definition huge64 : Vector float :=
  mkVector 0x1p600%float 0x1p600%float 0x1p600%float.

(** Does [s] contain a decimal digit? *)
Fixpoint has_digit (s : string) : bool :=
  match s with
  | EmptyString => false
  | String c s' =>
      ((48 <=? nat_of_ascii c)%nat && (nat_of_ascii c <=? 57)%nat) || has_digit s'
  end.

Section Renaming.
Import EvaluateFunctionOnGrid.
Context {D : Type}.

(** The value [v] under another name. *)
Definition rename_value (f : string -> string) (v : Value) : Value :=
  mkValue (f (getName v)) (getShape v).

(** The collaborators [ext], with every value that the grid header names
    given another name. *)
Definition rename_values (f : string -> string) (ext : External D) : External D :=
  mkExternal
    (getInfoForGridHeader ext)
    (fun names => map (rename_value f) (interpretArgumentList ext names))
    (distinctArgumentsOf ext)
    (createTasksFromArguments ext)
    (setupActionInChain ext)
    (retrieveArguments ext)
    (getFunctionValueAndDerivatives ext).
End Renaming.

(** * Properties of [Tetrahedral::compute] *)

Module TetrahedralFacts.
Import Tetrahedral.
Local Open Scope R_scope.

Ltac tetra_unfold :=
  unfold tmp, myder, t1, tt1, t2, tt2, t3, tt3, t4, tt4,
    sp1c, sp2c, sp3c, sp4c, sp1, sp2, sp3, sp4, r3, r5, d1, modulo, vopp, vidx;
  cbn [v0 v1 v2 sadd ssub smul sdiv sneg ssqrt spow sint R_scalar].

(** [compute] hands [val * tmp], [tmp] and [val * myder] to the three
    accumulation helpers, in this order; the properties below are about
    these two locals. *)
Lemma compute_accumulates {D : Type} `{Scalar D}
    (addToValue addWeightDerivative : Z -> D -> MultiValue D -> MultiValue D)
    (addVectorDerivatives : Z -> Vector D -> MultiValue D -> MultiValue D)
    (val : D) (distance : Vector D) (myvals : MultiValue D) :
  compute addToValue addWeightDerivative addVectorDerivatives val distance myvals
  = addVectorDerivatives 0%Z (vscale val (myder distance))
      (addWeightDerivative 0%Z (tmp distance)
         (addToValue 0%Z (smul val (tmp distance)) myvals)).
Proof. reflexivity. Qed.

Lemma modulo_R (d : Vector R) :
  modulo d = sqrt (v0 d * v0 d + v1 d * v1 d + v2 d * v2 d).
Proof. reflexivity. Qed.

(** The four cubes add up to [24 x y z]. *)
Lemma tmp_closed_form (d : Vector R) :
  tmp d = 24 * v0 d * v1 d * v2 d / modulo d ^ 3.
Proof. tetra_unfold. unfold Rdiv. ring. Qed.

Lemma modulo_vopp (d : Vector R) : modulo (vopp d) = modulo d.
Proof. tetra_unfold. f_equal. ring. Qed.

Lemma modulo_unit_x : modulo unit_x = 1.
Proof.
  rewrite modulo_R. cbn [unit_x v0 v1 v2].
  replace (1 * 1 + 0 * 0 + 0 * 0) with 1 by ring. apply sqrt_1.
Qed.

Lemma modulo_nonzero_pos (d : Vector R) :
  modulo d <> 0 -> 0 < v0 d * v0 d + v1 d * v1 d + v2 d * v2 d.
Proof.
  rewrite modulo_R. intros Hm.
  destruct (Rle_or_lt (v0 d * v0 d + v1 d * v1 d + v2 d * v2 d) 0) as [Hle|Hlt];
    [| exact Hlt].
  exfalso. apply Hm. apply sqrt_neg_0. exact Hle.
Qed.

(** ** Differentiating one term of the sum *)

Lemma derivable_pt_lim_eq (f : R -> R) (x l l' : R) :
  l = l' -> derivable_pt_lim f x l -> derivable_pt_lim f x l'.
Proof. intros ->. exact (fun Hd => Hd). Qed.

(** [t |-> t*t + k] has derivative [2 x]. *)
Lemma square_plus_derivative (k x : R) :
  derivable_pt_lim (fun t => t * t + k) x (2 * x).
Proof.
  apply derivable_pt_lim_eq with (l := 1 * id x + id x * 1 + 0).
  - unfold id. ring.
  - apply (derivable_pt_lim_plus (id * id)%F (fct_cte k)).
    + apply derivable_pt_lim_mult; apply derivable_pt_lim_id.
    + apply derivable_pt_lim_const.
Qed.

(** [t |-> sqrt (t*t + k) ^ n], the powers of the modulus as a function of
    one coordinate. *)
Lemma modulus_power_derivative (n : nat) (k x : R) :
  0 < x * x + k ->
  derivable_pt_lim (fun t => sqrt (t * t + k) ^ n) x
    (INR n * sqrt (x * x + k) ^ pred n * (x / sqrt (x * x + k))).
Proof.
  intros Hpos.
  assert (Hs : sqrt (x * x + k) <> 0).
  { apply Rgt_not_eq. apply sqrt_lt_R0. exact Hpos. }
  apply derivable_pt_lim_eq
    with (l := INR n * sqrt (x * x + k) ^ pred n
               * (/ (2 * sqrt (x * x + k)) * (2 * x))).
  - field. exact Hs.
  - apply (derivable_pt_lim_comp (fun t => sqrt (t * t + k)) (fun y => y ^ n)).
    + apply (derivable_pt_lim_comp (fun t => t * t + k) sqrt).
      * apply square_plus_derivative.
      * apply derivable_pt_lim_sqrt. exact Hpos.
    + apply derivable_pt_lim_pow.
Qed.

(** [t |-> (s*t + c) ^ 3]. *)
Lemma linear_cubed_derivative (s c x : R) :
  derivable_pt_lim (fun t => (s * t + c) ^ 3) x (3 * s * (s * x + c) ^ 2).
Proof.
  apply derivable_pt_lim_eq
    with (l := INR 3 * (s * x + c) ^ pred 3 * (0 * id x + s * 1 + 0)).
  - simpl. ring.
  - apply (derivable_pt_lim_comp (fun t => s * t + c) (fun y => y ^ 3)).
    + apply (derivable_pt_lim_plus (fct_cte s * id)%F (fct_cte c)).
      * apply derivable_pt_lim_mult;
          [apply derivable_pt_lim_const | apply derivable_pt_lim_id].
      * apply derivable_pt_lim_const.
    + apply derivable_pt_lim_pow.
Qed.

(** One term [(s*t + c)^3 / r^3] of the sum, as a function of the
    coordinate [t] that is varied; [k] is the sum of the squares of the two
    other coordinates.  The derivative has the shape [tt - t * x] that the
    source uses for each of its twelve summands. *)
Lemma term_derivative (s c k x : R) :
  0 < x * x + k ->
  derivable_pt_lim
    (fun t => (s * t + c) ^ 3 / sqrt (t * t + k) ^ 3) x
    (s * (3 * (s * x + c) * (s * x + c) / sqrt (x * x + k) ^ 3)
     - x * (3 * (s * x + c) ^ 3 / sqrt (x * x + k) ^ 5)).
Proof.
  intros Hpos.
  assert (Hs : sqrt (x * x + k) <> 0).
  { apply Rgt_not_eq. apply sqrt_lt_R0. exact Hpos. }
  pose proof (linear_cubed_derivative s c x) as Hnum.
  pose proof (modulus_power_derivative 3 k x Hpos) as Hden.
  pose proof (derivable_pt_lim_div _ _ _ _ _ Hnum Hden (pow_nonzero _ 3 Hs))
    as Hdiv.
  revert Hdiv. apply derivable_pt_lim_eq.
  unfold Rsqr. simpl INR. simpl pred. field. exact Hs.
Qed.

(** The sum of four such terms. *)
Lemma four_terms_derivative (a1 a2 a3 a4 c1 c2 c3 c4 k x : R) :
  0 < x * x + k ->
  derivable_pt_lim
    (fun t => (a1 * t + c1) ^ 3 / sqrt (t * t + k) ^ 3
              + (a2 * t + c2) ^ 3 / sqrt (t * t + k) ^ 3
              + (a3 * t + c3) ^ 3 / sqrt (t * t + k) ^ 3
              + (a4 * t + c4) ^ 3 / sqrt (t * t + k) ^ 3) x
    ((a1 * (3 * (a1 * x + c1) * (a1 * x + c1) / sqrt (x * x + k) ^ 3)
      - x * (3 * (a1 * x + c1) ^ 3 / sqrt (x * x + k) ^ 5))
     + (a2 * (3 * (a2 * x + c2) * (a2 * x + c2) / sqrt (x * x + k) ^ 3)
        - x * (3 * (a2 * x + c2) ^ 3 / sqrt (x * x + k) ^ 5))
     + (a3 * (3 * (a3 * x + c3) * (a3 * x + c3) / sqrt (x * x + k) ^ 3)
        - x * (3 * (a3 * x + c3) ^ 3 / sqrt (x * x + k) ^ 5))
     + (a4 * (3 * (a4 * x + c4) * (a4 * x + c4) / sqrt (x * x + k) ^ 3)
        - x * (3 * (a4 * x + c4) ^ 3 / sqrt (x * x + k) ^ 5))).
Proof.
  intros Hpos.
  pose proof (term_derivative a1 c1 k x Hpos) as H1.
  pose proof (term_derivative a2 c2 k x Hpos) as H2.
  pose proof (term_derivative a3 c3 k x Hpos) as H3.
  pose proof (term_derivative a4 c4 k x Hpos) as H4.
  exact (derivable_pt_lim_plus _ _ _ _ _
           (derivable_pt_lim_plus _ _ _ _ _
              (derivable_pt_lim_plus _ _ _ _ _ H1 H2) H3) H4).
Qed.

(** ** The gradient *)

Lemma myder_partial_x (d : Vector R) :
  modulo d <> 0 -> partial_x tmp d (v0 (myder d)).
Proof.
  intros Hm. apply modulo_nonzero_pos in Hm.
  destruct d as [x y z]. cbn [v0 v1 v2] in Hm. unfold partial_x. cbn [v0 v1 v2].
  assert (Hpos : 0 < x * x + (y * y + z * z)) by lra.
  pose proof (four_terms_derivative 1 1 (-1) (-1)
                (y + z) (- y - z) (y - z) (- y + z) (y * y + z * z) x Hpos) as Hd.
  apply derivable_pt_lim_ext with (g := fun t => tmp (mkVector t y z)) in Hd.
  - revert Hd. apply derivable_pt_lim_eq. tetra_unfold.
    replace (x * x + (y * y + z * z)) with (x * x + y * y + z * z) by ring.
    unfold Rdiv. ring.
  - intros t. tetra_unfold.
    replace (t * t + (y * y + z * z)) with (t * t + y * y + z * z) by ring.
    unfold Rdiv. ring.
Qed.

Lemma myder_partial_y (d : Vector R) :
  modulo d <> 0 -> partial_y tmp d (v1 (myder d)).
Proof.
  intros Hm. apply modulo_nonzero_pos in Hm.
  destruct d as [x y z]. cbn [v0 v1 v2] in Hm. unfold partial_y. cbn [v0 v1 v2].
  assert (Hpos : 0 < y * y + (x * x + z * z)) by lra.
  pose proof (four_terms_derivative 1 (-1) 1 (-1)
                (x + z) (x - z) (- x - z) (- x + z) (x * x + z * z) y Hpos) as Hd.
  apply derivable_pt_lim_ext with (g := fun t => tmp (mkVector x t z)) in Hd.
  - revert Hd. apply derivable_pt_lim_eq. tetra_unfold.
    replace (y * y + (x * x + z * z)) with (x * x + y * y + z * z) by ring.
    unfold Rdiv. ring.
  - intros t. tetra_unfold.
    replace (t * t + (x * x + z * z)) with (x * x + t * t + z * z) by ring.
    unfold Rdiv. ring.
Qed.

Lemma myder_partial_z (d : Vector R) :
  modulo d <> 0 -> partial_z tmp d (v2 (myder d)).
Proof.
  intros Hm. apply modulo_nonzero_pos in Hm.
  destruct d as [x y z]. cbn [v0 v1 v2] in Hm. unfold partial_z. cbn [v0 v1 v2].
  assert (Hpos : 0 < z * z + (x * x + y * y)) by lra.
  pose proof (four_terms_derivative 1 (-1) (-1) 1
                (x + y) (x - y) (- x + y) (- x - y) (x * x + y * y) z Hpos) as Hd.
  apply derivable_pt_lim_ext with (g := fun t => tmp (mkVector x y t)) in Hd.
  - revert Hd. apply derivable_pt_lim_eq. tetra_unfold.
    replace (z * z + (x * x + y * y)) with (x * x + y * y + z * z) by ring.
    unfold Rdiv. ring.
  - intros t. tetra_unfold.
    replace (t * t + (x * x + y * y)) with (x * x + y * y + t * t) by ring.
    unfold Rdiv. ring.
Qed.

(** Along each axis through (1,0,0) the value is constantly 0, so every
    central-difference estimate there is 0. *)
Lemma central_difference_unit_x (h : R) :
  central_difference tmp unit_x h = mkVector 0 0 0.
Proof.
  unfold central_difference. rewrite !tmp_closed_form.
  cbn [unit_x v0 v1 v2 sadd ssub smul sdiv sint R_scalar].
  f_equal; unfold Rdiv; ring.
Qed.

Lemma myder_unit_x : myder unit_x = mkVector 0 0 0.
Proof.
  assert (Hr : sqrt (1 * 1 + 0 * 0 + 0 * 0) = 1).
  { replace (1 * 1 + 0 * 0 + 0 * 0) with 1 by ring. apply sqrt_1. }
  tetra_unfold. cbn [unit_x v0 v1 v2]. rewrite Hr.
  f_equal; field.
Qed.

(** The code computes the documented formula. *)
Lemma tmp_is_formula (d : Vector R) : tmp d = tetrahedral_formula d.
Proof.
  unfold tetrahedral_formula. cbv zeta. tetra_unfold.
  replace (v0 d ^ 2 + v1 d ^ 2 + v2 d ^ 2)
    with (v0 d * v0 d + v1 d * v1 d + v2 d * v2 d) by ring.
  unfold Rdiv. ring.
Qed.

Lemma formula_gradient (d g : Vector R) :
  is_gradient tmp d g -> is_gradient tetrahedral_formula d g.
Proof.
  intros (Hx & Hy & Hz).
  repeat split;
    [revert Hx | revert Hy | revert Hz];
    apply derivable_pt_lim_ext; intros t; apply tmp_is_formula.
Qed.

Lemma formula_central_difference (d : Vector R) (h : R) :
  central_difference tetrahedral_formula d h = central_difference tmp d h.
Proof. unfold central_difference. rewrite <- !tmp_is_formula. reflexivity. Qed.

(** C4, in exact arithmetic: [tmp] is the per-neighbour function f of the
    documentation; for a distance [d] with nonzero modulus, [myder] is the
    gradient of f at [d]; and at (1,0,0) each component of [myder] is
    within 1e-6 of the central-difference estimate of f with any step
    [0 < h < 1]. *)
Theorem myder_is_gradient (d : Vector R) (h : R) :
  modulo d <> 0 ->
  0 < h < 1 ->
  tmp d = tetrahedral_formula d
  /\ is_gradient tetrahedral_formula d (myder d)
  /\ Rabs (v0 (central_difference tetrahedral_formula unit_x h) - v0 (myder unit_x))
     <= 1 / 1000000
  /\ Rabs (v1 (central_difference tetrahedral_formula unit_x h) - v1 (myder unit_x))
     <= 1 / 1000000
  /\ Rabs (v2 (central_difference tetrahedral_formula unit_x h) - v2 (myder unit_x))
     <= 1 / 1000000.
Proof.
  intros Hm Hh. split; [apply tmp_is_formula|]. split.
  - apply formula_gradient. repeat split;
      [apply myder_partial_x | apply myder_partial_y | apply myder_partial_z];
      exact Hm.
  - rewrite formula_central_difference, central_difference_unit_x, myder_unit_x.
    cbn [v0 v1 v2].
    replace (0 - 0) with 0 by ring. rewrite Rabs_R0. repeat split; lra.
Qed.

Lemma modulo_sample_distance : modulo sample_distance <> 0.
Proof.
  rewrite modulo_R. cbn [sample_distance v0 v1 v2].
  apply Rgt_not_eq. apply sqrt_lt_R0. lra.
Qed.

Lemma half_is_a_step : 0 < 1 / 2 < 1.
Proof. lra. Qed.

Lemma myder_is_gradient_witness :
  modulo sample_distance <> 0 /\ 0 < 1 / 2 < 1
  /\ is_gradient tetrahedral_formula sample_distance (myder sample_distance).
Proof.
  split; [exact modulo_sample_distance | split; [exact half_is_a_step |]].
  exact (proj1 (proj2 (myder_is_gradient sample_distance (1 / 2)
                         modulo_sample_distance half_is_a_step))).
Defined.

(** C4, as stated of the doubles, fails: in binary64 arithmetic the
    distance [tiny64] has a nonzero modulus, the fifth power of the modulus
    underflows to 0, and the three components of [myder] are NaN, which is
    no gradient. *)
Lemma myder_binary64_not_gradient :
  PrimFloat.ltb 0%float (modulo tiny64) = true
  /\ r5 tiny64 = 0%float
  /\ PrimFloat.is_nan (v0 (myder tiny64)) = true
  /\ PrimFloat.is_nan (v1 (myder tiny64)) = true
  /\ PrimFloat.is_nan (v2 (myder tiny64)) = true.
Proof. repeat split; vm_compute; reflexivity. Qed.

(** ** Binary64 evaluations

    The same definitions evaluated in binary64 arithmetic agree with the
    statements over the reals on sample inputs: at (1,0,0) the derivative
    and the central differences are exactly 0; at (1,2,3) they agree to
    within [2^-20], and the value at (-1,-2,-3) is the negated value.  At
    (-1,0,0) the value is the zero [+0] where the negated value is [-0]:
    the two are equal as binary64 numbers, not as bit patterns. *)
Lemma binary64_evaluations :
  myder unit_x64 = mkVector 0%float 0%float 0%float
  /\ central_difference tmp unit_x64 step64 = mkVector 0%float 0%float 0%float
  /\ within64 (v0 (central_difference tmp sample64 step64)) (v0 (myder sample64)) = true
  /\ within64 (v1 (central_difference tmp sample64 step64)) (v1 (myder sample64)) = true
  /\ within64 (v2 (central_difference tmp sample64 step64)) (v2 (myder sample64)) = true
  /\ tmp (vopp sample64) = PrimFloat.opp (tmp sample64)
  /\ PrimFloat.eqb (tmp (vopp unit_x64)) (PrimFloat.opp (tmp unit_x64)) = true.
Proof. repeat split; vm_compute; reflexivity. Qed.

(** ** The value at (1,0,0) *)

(** C3, as the code has it: at (x,y,z) = (1,0,0) the per-neighbour value
    [tmp] is 0, both in exact arithmetic and in binary64 arithmetic (where
    every intermediate result is exact). *)
Theorem tmp_unit_x_is_zero :
  tmp unit_x = 0 /\ tetrahedral_formula unit_x = 0 /\ tmp unit_x64 = 0%float.
Proof.
  assert (Hz : tmp unit_x = 0).
  { rewrite tmp_closed_form. cbn [unit_x v0 v1 v2]. unfold Rdiv. ring. }
  split; [exact Hz|]. split.
  - rewrite <- tmp_is_formula. exact Hz.
  - vm_compute. reflexivity.
Qed.

(** C3, as stated, fails: the value at (1,0,0) is not 2. *)
Lemma tmp_unit_x_is_not_two :
  tmp unit_x <> 2 /\ tetrahedral_formula unit_x <> 2 /\ tmp unit_x64 <> 2%float.
Proof.
  assert (Hz : tmp unit_x <> 2).
  { rewrite tmp_closed_form. cbn [unit_x v0 v1 v2]. unfold Rdiv.
    intros Heq. ring_simplify in Heq. lra. }
  split; [exact Hz|]. split.
  - rewrite <- tmp_is_formula. exact Hz.
  - vm_compute. intros Heq.
    apply (f_equal (fun f => PrimFloat.ltb f 1%float)) in Heq.
    vm_compute in Heq. discriminate Heq.
Qed.

(** ** Oddness under inversion *)

(** C10, in exact arithmetic: for a distance with nonzero modulus, the
    value at [-d] is the negation of the value at [d]: each of [sp1] ..
    [sp4] changes sign, so do their cubes, and the modulus stays the
    same. *)
Theorem tmp_odd_under_inversion (d : Vector R) :
  modulo d <> 0 ->
  tmp (vopp d) = - tmp d
  /\ (sp1 (vopp d) = - sp1 d /\ sp2 (vopp d) = - sp2 d
      /\ sp3 (vopp d) = - sp3 d /\ sp4 (vopp d) = - sp4 d)
  /\ (sp1c (vopp d) = - sp1c d /\ sp2c (vopp d) = - sp2c d
      /\ sp3c (vopp d) = - sp3c d /\ sp4c (vopp d) = - sp4c d)
  /\ modulo (vopp d) = modulo d.
Proof.
  intros _.
  assert (Hm : modulo (vopp d) = modulo d) by apply modulo_vopp.
  split; [| split; [| split]].
  - unfold tmp, r3, d1. rewrite Hm.
    unfold sp1c, sp2c, sp3c, sp4c, sp1, sp2, sp3, sp4, vopp, vidx.
    cbn [v0 v1 v2 sadd ssub smul sdiv sneg ssqrt spow sint R_scalar].
    unfold Rdiv. ring.
  - repeat split; tetra_unfold; ring.
  - repeat split; tetra_unfold; ring.
  - exact Hm.
Qed.

Lemma tmp_odd_under_inversion_witness :
  modulo sample_distance <> 0
  /\ tmp (vopp sample_distance) = - tmp sample_distance.
Proof.
  split; [exact modulo_sample_distance|].
  exact (proj1 (tmp_odd_under_inversion sample_distance modulo_sample_distance)).
Defined.

(** C10, as stated of the doubles, fails: in binary64 arithmetic, at
    (1,0,0) the value at [-d] is [+0] where the negated value at [d] is
    [-0], two different doubles; and at [huge64], whose modulus is not
    zero, both values are NaN, which equals nothing. *)
Lemma tmp_binary64_not_odd :
  (PrimFloat.ltb 0%float (modulo unit_x64) = true
   /\ tmp (vopp unit_x64) <> PrimFloat.opp (tmp unit_x64))
  /\ (PrimFloat.ltb 0%float (modulo huge64) = true
      /\ PrimFloat.is_nan (tmp huge64) = true
      /\ PrimFloat.is_nan (tmp (vopp huge64)) = true
      /\ PrimFloat.eqb (tmp (vopp huge64)) (PrimFloat.opp (tmp huge64)) = false).
Proof.
  split; [split; [vm_compute; reflexivity|] | repeat split; vm_compute; reflexivity].
  vm_compute. intros Heq.
  apply (f_equal (fun f => PrimFloat.ltb (PrimFloat.div 1%float f) 0%float)) in Heq.
  vm_compute in Heq. discriminate Heq.
Qed.
End TetrahedralFacts.

(** * Properties of [EvaluateFunctionOnGrid] *)

Module GridFacts.
Import EvaluateFunctionOnGrid.

Section Checks.
Context {D : Type}.
Implicit Types (s : Action D) (argv : list Value).

(** The loop over the dimensions of one argument: [pre0] and [prei] are
    the dimensions already compared. *)
Lemma check_dimensions_from (argv : list Value) (i : nat) (a0 ai : Value) s :
  argv !! 0%nat = Some a0 ->
  argv !! i = Some ai ->
  forall l0 li pre0 prei,
    getShape a0 = pre0 ++ l0 ->
    getShape ai = prei ++ li ->
    length pre0 = length prei ->
    length l0 = length li ->
    for_ (seq (length pre0) (length l0)) (check_dimension (D:=D) argv i) s
    = if decide (l0 = li) then Ok (tt, s)
      else ConfigurationError "mismatched shapes for arguments".
Proof.
  intros H0 Hi l0.
  induction l0 as [|x l0 IH]; intros li pre0 prei E0 Ei Hpre Hlen.
  - destruct li; [| discriminate Hlen]. reflexivity.
  - destruct li as [|y li]; [discriminate Hlen|].
    cbn [length seq for_].
    unfold bind at 1. unfold check_dimension at 1.
    unfold bind, lift, vector_at. rewrite H0, Hi, E0, Ei.
    rewrite (list_lookup_middle pre0 l0 x (length pre0) eq_refl).
    rewrite (list_lookup_middle prei li y (length pre0) Hpre).
    unfold error_if.
    destruct (Z.eqb_spec x y) as [->|Hne]; cbn [negb].
    + unfold ret.
      specialize (IH li (pre0 ++ [y]) (prei ++ [y])).
      rewrite !length_app in IH. cbn [length] in IH.
      rewrite Nat.add_1_r in IH.
      fold (bind (A:=unit) (B:=unit) (D:=D)).
      change (for_ (seq (S (length pre0)) (length l0)) (check_dimension argv i) s
              = if decide (y :: l0 = y :: li) then Ok (tt, s)
                else ConfigurationError "mismatched shapes for arguments").
      rewrite IH.
      * destruct (decide (l0 = li)) as [Heq|Hn];
          destruct (decide (y :: l0 = y :: li)) as [He|Hn']; try reflexivity.
        -- exfalso. apply Hn'. congruence.
        -- exfalso. apply Hn. congruence.
      * rewrite <- app_assoc. exact E0.
      * rewrite <- app_assoc. exact Ei.
      * rewrite Nat.add_1_r. congruence.
      * cbn [length] in Hlen. lia.
    + unfold error. destruct (decide (x :: l0 = y :: li)) as [He|_];
        [congruence | reflexivity].
Qed.

Lemma check_argument_spec (argv : list Value) (i : nat) (a0 ai : Value) s :
  argv !! 0%nat = Some a0 ->
  argv !! i = Some ai ->
  check_argument argv i s
  = if negb (getRank a0 =? getRank ai)
    then ConfigurationError "mismatched ranks for arguments"
    else if decide (getShape a0 = getShape ai) then Ok (tt, s)
         else ConfigurationError "mismatched shapes for arguments".
Proof.
  intros H0 Hi. unfold check_argument, bind, lift, vector_at, error_if.
  rewrite H0, Hi.
  destruct (Z.eqb_spec (getRank a0) (getRank ai)) as [Hr|Hr]; cbn [negb];
    [| reflexivity].
  unfold ret. unfold getRank in *. rewrite Nat2Z.id.
  apply (check_dimensions_from argv i a0 ai s H0 Hi
           (getShape a0) (getShape ai) [] []); try reflexivity.
  lia.
Qed.

Lemma check_arguments_from (a0 : Value) s :
  forall rest pre,
    for_ (seq (S (length pre)) (length rest))
         (check_argument (D:=D) (a0 :: pre ++ rest)) s
    = match first_mismatch a0 rest with
      | None => Ok (tt, s)
      | Some m => ConfigurationError m
      end.
Proof.
  induction rest as [|ai rest IH]; intros pre; [reflexivity|].
  cbn [length seq for_ first_mismatch]. unfold bind at 1.
  rewrite (check_argument_spec (a0 :: pre ++ ai :: rest) (S (length pre))
             a0 ai s eq_refl).
  2:{ change (a0 :: pre ++ ai :: rest) with ([a0] ++ pre ++ ai :: rest).
      rewrite app_assoc. apply list_lookup_middle.
      rewrite length_app. reflexivity. }
  destruct (negb (getRank a0 =? getRank ai)); [reflexivity|].
  destruct (decide (getShape a0 = getShape ai)); [| reflexivity].
  specialize (IH (pre ++ [ai])).
  rewrite length_app, Nat.add_1_r, <- app_assoc in IH. exact IH.
Qed.

Lemma check_arguments_spec (a0 : Value) (rest : list Value) s :
  check_arguments (a0 :: rest) s
  = match first_mismatch a0 rest with
    | None => Ok (tt, s)
    | Some m => ConfigurationError m
    end.
Proof.
  unfold check_arguments. cbn [length]. rewrite Nat.sub_succ, Nat.sub_0_r.
  exact (check_arguments_from a0 s rest []).
Qed.

Lemma log_loop (f : Value -> string) (argv : list Value) :
  forall s,
    for_ argv (fun a => log_printf (f a)) s
    = Ok (tt, put_log (log s ++ map f argv) s).
Proof.
  induction argv as [|a argv IH]; intros s.
  - cbn [for_ map]. rewrite app_nil_r. destruct s. reflexivity.
  - cbn [for_ map]. unfold bind at 1. unfold log_printf at 1, modify.
    rewrite IH. destruct s. cbn. rewrite <- app_assoc. reflexivity.
Qed.

(** The constructor, case by case. *)
Lemma constructor_spec (ext : External D) (ao : ActionOptions) :
  EvaluateFunctionOnGrid ext ao
  = match ARG ao with
    | [] => Undefined
    | gval :: _ =>
        let hdr := getInfoForGridHeader ext gval in
        if String.eqb (gtype hdr) "fibonacci"
        then ConfigurationError "cannot interpolate on fibonacci sphere"
        else match interpretArgumentList ext (argn hdr) with
             | [] => Undefined
             | a0 :: rest =>
                 match first_mismatch a0 rest with
                 | Some m => ConfigurationError m
                 | None => Ok (constructed ext ao gval a0 rest)
                 end
             end
    end.
Proof.
  unfold EvaluateFunctionOnGrid, constructor_body, ActionWithInputGrid.
  unfold getPntrToArgument at 1. unfold bind at 1. unfold bind at 1.
  unfold gets at 1. cbn [arguments]. unfold lift at 1, vector_at at 1.
  destruct (ARG ao) as [|gval args] eqn:Eargs; [reflexivity|].
  cbn [lookup list_lookup]. cbv zeta.
  unfold bind at 1. unfold error_if at 1.
  destruct (String.eqb (gtype (getInfoForGridHeader ext gval)) "fibonacci");
    [reflexivity|].
  unfold ret at 1. unfold bind at 1. unfold set_arg_ends at 1, modify at 1.
  unfold bind at 1.
  destruct (interpretArgumentList ext (argn (getInfoForGridHeader ext gval)))
    as [|a0 rest] eqn:Eargv.
  - reflexivity.
  - rewrite check_arguments_spec.
    destruct (first_mismatch a0 rest); [reflexivity|].
    unfold bind at 1. unfold getPntrToArgument at 1, bind at 1, gets at 1.
    cbn [put_arg_ends arguments lift vector_at lookup list_lookup].
    unfold bind at 1. unfold log_printf at 1, modify at 1.
    unfold bind at 1. rewrite log_loop.
    unfold constructed. cbn.
    destruct (getShape a0) as [|n shape] eqn:Eshape;
      destruct (distinctArgumentsOf ext (gval :: a0 :: rest)) as [|da das] eqn:Eda;
      cbn; rewrite ?Eda; reflexivity.
Qed.
End Checks.

Section Construction.
Context {D : Type}.
Implicit Types (ext : External D) (ao : ActionOptions).

Lemma first_mismatch_messages (a0 : Value) (rest : list Value) (m : string) :
  first_mismatch a0 rest = Some m ->
  m = "mismatched ranks for arguments"%string
  \/ m = "mismatched shapes for arguments"%string.
Proof.
  induction rest as [|ai rest IH]; cbn [first_mismatch]; [discriminate|].
  destruct (negb (getRank a0 =? getRank ai)); [intros [= <-]; left; reflexivity|].
  destruct (decide (getShape a0 = getShape ai)); [exact IH|].
  intros [= <-]. right. reflexivity.
Qed.

Lemma first_mismatch_same_ranks (a0 : Value) (rest : list Value) (m : string) :
  same_ranks (a0 :: rest) ->
  first_mismatch a0 rest = Some m ->
  m = "mismatched shapes for arguments"%string.
Proof.
  intros Hsame. induction rest as [|ai rest IH]; cbn [first_mismatch];
    [discriminate|].
  rewrite (Hsame a0 ai) by (cbn; tauto). rewrite Z.eqb_refl. cbn [negb].
  destruct (decide (getShape a0 = getShape ai)); [| intros [= <-]; reflexivity].
  apply IH. intros a b Ha Hb. apply Hsame; cbn in *; tauto.
Qed.

Lemma first_mismatch_none (a0 : Value) (rest : list Value) :
  first_mismatch a0 rest = None ->
  forall (i : nat) (a : Value), (a0 :: rest) !! i = Some a -> getShape a = getShape a0.
Proof.
  induction rest as [|ai rest IH]; cbn [first_mismatch]; intros Hnone i a Hi.
  - destruct i; cbn in Hi; [congruence | discriminate Hi].
  - destruct (negb (getRank a0 =? getRank ai)); [discriminate Hnone|].
    destruct (decide (getShape a0 = getShape ai)) as [He|]; [| discriminate Hnone].
    destruct i as [|[|i]]; cbn in Hi.
    + congruence.
    + congruence.
    + apply (IH Hnone (S i)). exact Hi.
Qed.

Lemma shapes_differ_mismatch (a0 : Value) (rest : list Value) :
  shapes_differ (a0 :: rest) -> exists m, first_mismatch a0 rest = Some m.
Proof.
  intros (i & j & a & b & Hi & Hj & Hne).
  destruct (first_mismatch a0 rest) as [m|] eqn:E; [exists m; reflexivity|].
  exfalso. apply Hne.
  rewrite (first_mismatch_none a0 rest E i a Hi).
  rewrite (first_mismatch_none a0 rest E j b Hj). reflexivity.
Qed.

Lemma first_mismatch_first_offender (a0 : Value) (rest : list Value) (m : string) :
  first_mismatch a0 rest = Some m ->
  exists (pre : list Value) (ai : Value) (post : list Value),
    rest = pre ++ ai :: post
    /\ Forall (fun a => getShape a = getShape a0) pre
    /\ getShape ai <> getShape a0
    /\ m = (if getRank a0 =? getRank ai
            then "mismatched shapes for arguments"%string
            else "mismatched ranks for arguments"%string).
Proof.
  induction rest as [|a rest IH]; cbn [first_mismatch]; [discriminate|].
  destruct (Z.eqb_spec (getRank a0) (getRank a)) as [Hr|Hr]; cbn [negb].
  - destruct (decide (getShape a0 = getShape a)) as [Hs|Hs].
    + intros Hm. destruct (IH Hm) as (pre & ai & post & -> & Hpre & Hne & Hmsg).
      exists (a :: pre), ai, post. repeat split; try assumption.
      constructor; [symmetry; exact Hs | exact Hpre].
    + intros [= <-]. exists [], a, rest. repeat split.
      * constructor.
      * intros E. apply Hs. symmetry. exact E.
      * rewrite Hr, Z.eqb_refl. reflexivity.
  - intros [= <-]. exists [], a, rest. repeat split.
    + constructor.
    + intros E. apply Hr. unfold getRank. rewrite E. reflexivity.
    + destruct (Z.eqb_spec (getRank a0) (getRank a)); [contradiction | reflexivity].
Qed.

Lemma first_mismatch_rename (f : string -> string) (a0 : Value) (rest : list Value) :
  first_mismatch (rename_value f a0) (map (rename_value f) rest)
  = first_mismatch a0 rest.
Proof.
  induction rest as [|a rest IH]; [reflexivity|].
  cbn [map first_mismatch]. rewrite IH. reflexivity.
Qed.

Lemma fixed_messages_have_no_digit (msg : string) :
  msg = "cannot interpolate on fibonacci sphere"%string
  \/ msg = "mismatched ranks for arguments"%string
  \/ msg = "mismatched shapes for arguments"%string ->
  has_digit msg = false.
Proof. intros [-> | [-> | ->]]; reflexivity. Qed.

(** The argument count and the derivative count of a constructed object. *)
Lemma constructed_nderivatives ext ao (gval a0 : Value) (rest : list Value) :
  let op := constructed ext ao gval a0 rest in
  (distinct_arguments op = [] -> nderivatives op = getNumberOfArguments op)
  /\ (distinct_arguments op <> [] ->
      nderivatives op = setupActionInChain ext (arguments op) 1).
Proof.
  unfold constructed, getNumberOfArguments.
  cbn [distinct_arguments nderivatives arguments].
  destruct (distinctArgumentsOf ext (gval :: a0 :: rest)) as [|da das].
  - split; [reflexivity | intros Hne; exfalso; apply Hne; reflexivity].
  - split; [discriminate | reflexivity].
Qed.

(** What a successful construction tells about its input. *)
Lemma constructor_ok_inv ext ao (op : Action D) :
  EvaluateFunctionOnGrid ext ao = Ok op ->
  exists (gval a0 : Value) (rest : list Value),
    op = constructed ext ao gval a0 rest.
Proof.
  rewrite constructor_spec.
  destruct (ARG ao) as [|gval args]; [discriminate|]. cbv zeta.
  destruct (String.eqb _ _); [discriminate|].
  destruct (interpretArgumentList _ _) as [|a0 rest]; [discriminate|].
  destruct (first_mismatch a0 rest); [discriminate|].
  intros [= <-]. exists gval, a0, rest. reflexivity.
Qed.

(** ** Rejected constructions *)

(** C6: when the upstream grid reports the type "fibonacci", the
    constructor itself fails with a configuration error; it returns no
    object, so nothing is left for a later task to run on. *)
Theorem fibonacci_grid_rejected ext ao (gval : Value) :
  ARG ao !! 0%nat = Some gval ->
  gtype (getInfoForGridHeader ext gval) = "fibonacci"%string ->
  EvaluateFunctionOnGrid ext ao
  = ConfigurationError "cannot interpolate on fibonacci sphere"
  /\ forall op : Action D, EvaluateFunctionOnGrid ext ao <> Ok op.
Proof.
  intros Harg Hfib.
  assert (Hres : EvaluateFunctionOnGrid ext ao
                 = ConfigurationError "cannot interpolate on fibonacci sphere").
  { rewrite constructor_spec.
    destruct (ARG ao) as [|g args]; [discriminate Harg|].
    cbn in Harg. injection Harg as ->. cbv zeta. rewrite Hfib. reflexivity. }
  split; [exact Hres|]. intros op. rewrite Hres. discriminate.
Qed.

(** C2, as the code has it: when two of the resolved arguments differ in
    shape, the constructor fails with a configuration error and returns no
    object.  On a grid of type "fibonacci" the message is the one of line
    54.  Otherwise the first argument whose shape differs from the shape of
    the first one decides it: "mismatched ranks for arguments" when its
    rank differs, "mismatched shapes for arguments" when its rank agrees;
    so it is the latter whenever all the arguments have the same rank. *)
Theorem shape_mismatch_rejected ext ao (gval : Value) :
  ARG ao !! 0%nat = Some gval ->
  shapes_differ (interpretArgumentList ext (argn (getInfoForGridHeader ext gval))) ->
  exists msg : string,
    EvaluateFunctionOnGrid ext ao = ConfigurationError msg
    /\ (forall op : Action D, EvaluateFunctionOnGrid ext ao <> Ok op)
    /\ (gtype (getInfoForGridHeader ext gval) = "fibonacci"%string ->
        msg = "cannot interpolate on fibonacci sphere"%string)
    /\ (gtype (getInfoForGridHeader ext gval) <> "fibonacci"%string ->
        exists (a0 : Value) (pre : list Value) (ai : Value) (post : list Value),
          interpretArgumentList ext (argn (getInfoForGridHeader ext gval))
          = a0 :: pre ++ ai :: post
          /\ Forall (fun a => getShape a = getShape a0) pre
          /\ getShape ai <> getShape a0
          /\ msg = (if getRank a0 =? getRank ai
                    then "mismatched shapes for arguments"%string
                    else "mismatched ranks for arguments"%string))
    /\ (gtype (getInfoForGridHeader ext gval) <> "fibonacci"%string ->
        same_ranks (interpretArgumentList ext (argn (getInfoForGridHeader ext gval))) ->
        msg = "mismatched shapes for arguments"%string).
Proof.
  intros Harg Hdiff.
  assert (Hspec := constructor_spec ext ao).
  destruct (ARG ao) as [|g args]; [discriminate Harg|].
  cbn in Harg. injection Harg as ->. cbv zeta in Hspec.
  destruct (String.eqb_spec (gtype (getInfoForGridHeader ext gval)) "fibonacci")
    as [Hfib|Hfib].
  - exists "cannot interpolate on fibonacci sphere"%string.
    split; [exact Hspec|]. split; [intros op; rewrite Hspec; discriminate|].
    split; [reflexivity|]. split; intros Hne; contradiction.
  - destruct (interpretArgumentList ext (argn (getInfoForGridHeader ext gval)))
      as [|a0 rest].
    { destruct Hdiff as (i & j & a & b & Hi & _). destruct i; discriminate Hi. }
    destruct (shapes_differ_mismatch a0 rest Hdiff) as [m Hm].
    rewrite Hm in Hspec. exists m.
    split; [exact Hspec|]. split; [intros op; rewrite Hspec; discriminate|].
    split; [intros Hf; contradiction|]. split.
    + intros _.
      destruct (first_mismatch_first_offender a0 rest m Hm)
        as (pre & ai & post & -> & Hpre & Hne & Hmsg).
      exists a0, pre, ai, post. repeat split; assumption.
    + intros _ Hsame. exact (first_mismatch_same_ranks a0 rest m Hsame Hm).
Qed.

(** C5, as the code has it: the message of a failed construction is one of
    three fixed texts, and one of the two about mismatched arguments when
    the grid is not of type "fibonacci".  It contains no digit, hence no
    dimension index, and it stays the same when the values that the grid
    header names are given other names. *)
Theorem configuration_error_messages ext ao (msg : string) :
  EvaluateFunctionOnGrid ext ao = ConfigurationError msg ->
  (msg = "cannot interpolate on fibonacci sphere"%string
   \/ msg = "mismatched ranks for arguments"%string
   \/ msg = "mismatched shapes for arguments"%string)
  /\ (forall gval : Value,
        ARG ao !! 0%nat = Some gval ->
        gtype (getInfoForGridHeader ext gval) <> "fibonacci"%string ->
        msg = "mismatched ranks for arguments"%string
        \/ msg = "mismatched shapes for arguments"%string)
  /\ has_digit msg = false
  /\ (forall f : string -> string,
        EvaluateFunctionOnGrid (rename_values f ext) ao = ConfigurationError msg).
Proof.
  intros Hres.
  assert (Hthree : msg = "cannot interpolate on fibonacci sphere"%string
                   \/ msg = "mismatched ranks for arguments"%string
                   \/ msg = "mismatched shapes for arguments"%string).
  { rewrite constructor_spec in Hres.
    destruct (ARG ao) as [|gval args]; [discriminate|]. cbv zeta in Hres.
    destruct (String.eqb _ _); [injection Hres as <-; left; reflexivity|].
    destruct (interpretArgumentList _ _) as [|a0 rest]; [discriminate|].
    destruct (first_mismatch a0 rest) as [m|] eqn:Hm; [| discriminate].
    injection Hres as <-. right. exact (first_mismatch_messages a0 rest m Hm). }
  split; [exact Hthree|]. split; [| split].
  - intros gval Harg Hf. rewrite constructor_spec in Hres.
    destruct (ARG ao) as [|g args]; [discriminate|].
    cbn in Harg. injection Harg as ->. cbv zeta in Hres.
    destruct (String.eqb_spec (gtype (getInfoForGridHeader ext gval)) "fibonacci")
      as [Hf'|_]; [contradiction|].
    destruct (interpretArgumentList _ _) as [|a0 rest]; [discriminate|].
    destruct (first_mismatch a0 rest) as [m|] eqn:Hm; [| discriminate].
    injection Hres as <-. exact (first_mismatch_messages a0 rest m Hm).
  - apply fixed_messages_have_no_digit. exact Hthree.
  - intros f. rewrite constructor_spec in Hres |- *.
    unfold rename_values at 1 2 3. cbn [getInfoForGridHeader interpretArgumentList].
    destruct (ARG ao) as [|gval args]; [discriminate|]. cbv zeta in Hres |- *.
    destruct (String.eqb _ _); [exact Hres|].
    destruct (interpretArgumentList ext _) as [|a0 rest]; [discriminate|].
    cbn [map]. rewrite first_mismatch_rename.
    destruct (first_mismatch a0 rest) as [m|]; [exact Hres | discriminate].
Qed.

(** ** The number of derivatives *)

(** C8: after a successful construction, [nderivatives] is the number of
    arguments when [distinct_arguments] is empty, and is the count returned
    by [setupActionInChain(1)] otherwise. *)
Theorem nderivatives_default ext ao (op : Action D) :
  EvaluateFunctionOnGrid ext ao = Ok op ->
  (distinct_arguments op = [] -> nderivatives op = getNumberOfArguments op)
  /\ (distinct_arguments op <> [] ->
      nderivatives op = setupActionInChain ext (arguments op) 1).
Proof.
  intros Hok. destruct (constructor_ok_inv ext ao op Hok) as (gval & a0 & rest & ->).
  apply constructed_nderivatives.
Qed.

(** ** The one-time setup *)

(** C7: a constructed object has [firststep] true.  The first call of
    [prepareForTasks] derives the grid metadata from the header the
    upstream action reports at that moment and clears [firststep]; any
    further call, whatever the upstream action reports by then, returns
    the object unchanged. *)
Theorem prepareForTasks_once ext ao (op : Action D) :
  EvaluateFunctionOnGrid ext ao = Ok op ->
  firststep op = true
  /\ forall (ext1 : External D) (n1 : Z) (l1 : list Z),
      exists op1 : Action D,
        prepareForTasks ext1 n1 l1 op = Ok (tt, op1)
        /\ firststep op1 = false
        /\ (exists gval : Value,
              arguments op !! 0%nat = Some gval
              /\ gridobject op1
                 = Some (mkGridObject (nbin (getInfoForGridHeader ext1 gval))
                                      (spacing (getInfoForGridHeader ext1 gval))
                                      (pbc (getInfoForGridHeader ext1 gval))))
        /\ forall (ext2 : External D) (n2 : Z) (l2 : list Z),
            prepareForTasks ext2 n2 l2 op1 = Ok (tt, op1).
Proof.
  intros Hok. destruct (constructor_ok_inv ext ao op Hok) as (gval & a0 & rest & ->).
  split; [reflexivity|]. intros ext1 n1 l1.
  exists (put_gridobject
            (mkGridObject (nbin (getInfoForGridHeader ext1 gval))
                          (spacing (getInfoForGridHeader ext1 gval))
                          (pbc (getInfoForGridHeader ext1 gval)))
            (constructed ext ao gval a0 rest)).
  split; [reflexivity|]. split; [reflexivity|]. split.
  - exists gval. split; reflexivity.
  - intros ext2 n2 l2. reflexivity.
Qed.
End Construction.

(** ** The task *)

Section Task.
Context {D : Type} `{Scalar D}.

(** [performTask] adds the function value to the value of the output
    stream and leaves every derivative slot as it found it, whether or not
    derivatives are requested. *)
Lemma performTask_derivatives (ext : External D) (s : Action D) (current : Z)
    (myvals myvals' : MultiValue D) :
  performTask ext s current myvals = Ok myvals' ->
  derivatives myvals' = derivatives myvals.
Proof.
  unfold performTask. destruct (getPntrToOutput s 0) as [out| |]; try discriminate.
  destruct (getFunctionValueAndDerivatives ext s _) as [func der].
  destruct (doNotCalculateDerivatives s); intros [= <-]; reflexivity.
Qed.
End Task.

(** ** The properties on the sample inputs *)

Import Samples.

Lemma d1_d2_differ : shapes_differ [d1; d2].
Proof. exists 0%nat, 1%nat, d1, d2. repeat split. discriminate. Qed.

Lemma fibonacci_grid_rejected_witness :
  ARG options !! 0%nat = Some grid
  /\ gtype (getInfoForGridHeader (external "fibonacci" [d1; d3] [] 0 []) grid)
     = "fibonacci"%string
  /\ EvaluateFunctionOnGrid (external "fibonacci" [d1; d3] [] 0 []) options
     = ConfigurationError "cannot interpolate on fibonacci sphere".
Proof.
  split; [reflexivity|]. split; [reflexivity|].
  exact (proj1 (fibonacci_grid_rejected
                  (external "fibonacci" [d1; d3] [] 0 []) options grid
                  eq_refl eq_refl)).
Defined.

Lemma d1_d2_same_ranks : same_ranks [d1; d2].
Proof. intros a b [<-|[<-|[]]] [<-|[<-|[]]]; reflexivity. Qed.

Lemma shape_mismatch_rejected_witness :
  ARG options !! 0%nat = Some grid
  /\ shapes_differ [d1; d2]
  /\ fails_mentioning
       (EvaluateFunctionOnGrid (external "flat" [d1; d2] [] 0 []) options)
       "mismatched shapes".
Proof.
  split; [reflexivity|]. split; [exact d1_d2_differ|].
  destruct (shape_mismatch_rejected (external "flat" [d1; d2] [] 0 []) options
              grid eq_refl d1_d2_differ) as (msg & Hres & _ & _ & _ & Hmsg).
  exists msg. split; [exact Hres|].
  rewrite Hmsg; [reflexivity | discriminate | exact d1_d2_same_ranks].
Defined.

Lemma d1_d2_rejected :
  EvaluateFunctionOnGrid (external "flat" [d1; d2] [] 0 []) options
  = ConfigurationError "mismatched shapes for arguments".
Proof. vm_compute. reflexivity. Qed.

Lemma configuration_error_messages_witness :
  EvaluateFunctionOnGrid (external "flat" [d1; d2] [] 0 []) options
  = ConfigurationError "mismatched shapes for arguments"
  /\ has_digit "mismatched shapes for arguments" = false
  /\ EvaluateFunctionOnGrid
       (rename_values (fun name => String.append "arg_" name)
          (external "flat" [d1; d2] [] 0 []))
       options
     = ConfigurationError "mismatched shapes for arguments".
Proof.
  split; [exact d1_d2_rejected|].
  destruct (configuration_error_messages (external "flat" [d1; d2] [] 0 []) options
              "mismatched shapes for arguments" d1_d2_rejected)
    as (_ & _ & Hdigit & Hrename).
  split; [exact Hdigit | exact (Hrename _)].
Defined.

Lemma nderivatives_default_witness :
  EvaluateFunctionOnGrid (external "flat" [d1; d3] [] 0 []) options
  = Ok (constructed (external "flat" [d1; d3] [] 0 []) options grid d1 [d3])
  /\ nderivatives
       (constructed (external "flat" [d1; d3] [] 0 []) options grid d1 [d3]) = 3
  /\ nderivatives
       (constructed (external "flat" [d1; d3] ["d1"%string] 0 []) options grid d1 [d3])
     = 7.
Proof.
  split; [reflexivity|]. split.
  - exact (proj1 (nderivatives_default
                    (external "flat" [d1; d3] [] 0 []) options _ eq_refl)
                 eq_refl).
  - refine (proj2 (nderivatives_default
                     (external "flat" [d1; d3] ["d1"%string] 0 []) options _ eq_refl)
                  _).
    discriminate.
Defined.

Lemma prepareForTasks_once_witness :
  EvaluateFunctionOnGrid (external "flat" [d1; d3] [] 0 []) options
  = Ok (constructed (external "flat" [d1; d3] [] 0 []) options grid d1 [d3])
  /\ firststep
       (constructed (external "flat" [d1; d3] [] 0 []) options grid d1 [d3])
     = true.
Proof.
  split; [reflexivity|].
  exact (proj1 (prepareForTasks_once
                  (external "flat" [d1; d3] [] 0 []) options _ eq_refl)).
Defined.

(** C2, as stated, fails: with shapes (10,) and (12,) among the arguments,
    the message is about the grid type when that is "fibonacci", and about
    ranks when an argument of another rank is met first. *)
Lemma shape_mismatch_other_messages :
  (shapes_differ [d1; d2]
   /\ ~ fails_mentioning
         (EvaluateFunctionOnGrid (external "fibonacci" [d1; d2] [] 0 []) options)
         "mismatched shapes")
  /\ (shapes_differ [d1; m1; d2]
      /\ ~ fails_mentioning
            (EvaluateFunctionOnGrid (external "flat" [d1; m1; d2] [] 0 []) options)
            "mismatched shapes").
Proof.
  split; split.
  - exact d1_d2_differ.
  - intros (msg & Hres & Hm). vm_compute in Hres. injection Hres as <-.
    vm_compute in Hm. discriminate Hm.
  - exists 0%nat, 2%nat, d1, d2. repeat split. discriminate.
  - intros (msg & Hres & Hm). vm_compute in Hres. injection Hres as <-.
    vm_compute in Hm. discriminate Hm.
Qed.

(** C5, as stated, fails: the message for [d2], at fault in dimension 0,
    and the message for [m2], at fault in dimension 1, are the same text,
    which contains neither name and no index. *)
Lemma shape_mismatch_message_names_nothing :
  EvaluateFunctionOnGrid (external "flat" [d1; d2] [] 0 []) options
  = ConfigurationError "mismatched shapes for arguments"
  /\ EvaluateFunctionOnGrid (external "flat" [m1; m2] [] 0 []) options
     = ConfigurationError "mismatched shapes for arguments"
  /\ mentions "d2" "mismatched shapes for arguments" = false
  /\ mentions "m2" "mismatched shapes for arguments" = false
  /\ mentions "0" "mismatched shapes for arguments" = false
  /\ mentions "1" "mismatched shapes for arguments" = false.
Proof. repeat split. Qed.

(** C1 fails on the code: with derivatives requested and an interpolation
    that returns the value 1.5 and the derivative 2 for the one sampled
    argument, [performTask] adds 1.5 to the output stream and leaves the
    derivative buffer empty. *)
Theorem performTask_writes_no_derivative :
  EvaluateFunctionOnGrid interpolation options
  = Ok (constructed interpolation options grid x1 [])
  /\ doNotCalculateDerivatives (constructed interpolation options grid x1 []) = false
  /\ getNumberOfArguments (constructed interpolation options grid x1 []) - 1 = 1
  /\ performTask interpolation (constructed interpolation options grid x1 []) 0 fresh
     = Ok (mkMultiValue [1.5%float] ∅)
  /\ derivatives (MV.addDerivative 0 0 2%float (mkMultiValue [1.5%float] ∅))
       !! (0, 0) = Some 2%float.
Proof. repeat split. Qed.
End GridFacts.

(** * Further properties of [Tetrahedral::compute] *)

Module TetrahedralMore.
Import Tetrahedral TetrahedralFacts.
Local Open Scope R_scope.

Lemma sum_squares_nonneg (x y z : R) : 0 <= x * x + y * y + z * z.
Proof. nra. Qed.

Lemma modulo_squared (d : Vector R) :
  modulo d * modulo d = v0 d * v0 d + v1 d * v1 d + v2 d * v2 d.
Proof. rewrite modulo_R. apply sqrt_sqrt. apply sum_squares_nonneg. Qed.

Lemma modulo_pos (d : Vector R) : modulo d <> 0 -> 0 < modulo d.
Proof.
  intros Hm. apply modulo_nonzero_pos in Hm. rewrite modulo_R.
  apply sqrt_lt_R0. exact Hm.
Qed.

Lemma modulo_vscale (c : R) (d : Vector R) :
  0 <= c -> modulo (vscale c d) = c * modulo d.
Proof.
  intros Hc. rewrite !modulo_R. unfold vscale.
  cbn [v0 v1 v2 smul R_scalar].
  replace (c * v0 d * (c * v0 d) + c * v1 d * (c * v1 d) + c * v2 d * (c * v2 d))
    with ((c * c) * (v0 d * v0 d + v1 d * v1 d + v2 d * v2 d)) by ring.
  rewrite sqrt_mult_alt by nra. rewrite sqrt_square by exact Hc. reflexivity.
Qed.

(** Unfolds the locals of [compute] down to the coordinates, keeping the
    modulus folded. *)
Ltac tetra_unfold_keep_modulo :=
  unfold tmp, myder, t1, tt1, t2, tt2, t3, tt3, t4, tt4,
    sp1c, sp2c, sp3c, sp4c, sp1, sp2, sp3, sp4, r3, r5, d1, vidx;
  cbn [v0 v1 v2 sadd ssub smul sdiv sneg ssqrt spow sint R_scalar].

(** X1: the sum of the four cubes over the cubed modulus is the product
    form [24 x y z / r^3]. *)
Theorem tmp_product_form (d : Vector R) :
  tmp d = 24 * (v0 d * v1 d * v2 d) / modulo d ^ 3.
Proof. rewrite tmp_closed_form. unfold Rdiv. ring. Qed.

(** X2: for a nonzero modulus, the value is 0 wherever one of the three
    coordinates is 0. *)
Theorem tmp_zero_on_coordinate_planes (d : Vector R) :
  modulo d <> 0 -> v0 d = 0 \/ v1 d = 0 \/ v2 d = 0 -> tmp d = 0.
Proof.
  intros _ Hz. rewrite tmp_product_form.
  destruct Hz as [-> | [-> | ->]]; unfold Rdiv; ring.
Qed.

(** X3: for a nonzero modulus, each component of [myder] has the product
    form [24 y z (y^2 + z^2 - 2 x^2) / r^5], with the coordinates permuted. *)
Theorem myder_product_form (d : Vector R) :
  modulo d <> 0 ->
  myder d
  = mkVector
      (24 * v1 d * v2 d * (v1 d * v1 d + v2 d * v2 d - 2 * (v0 d * v0 d)) / modulo d ^ 5)
      (24 * v0 d * v2 d * (v0 d * v0 d + v2 d * v2 d - 2 * (v1 d * v1 d)) / modulo d ^ 5)
      (24 * v0 d * v1 d * (v0 d * v0 d + v1 d * v1 d - 2 * (v2 d * v2 d)) / modulo d ^ 5).
Proof.
  intros Hm. pose proof (modulo_squared d) as Hsq.
  destruct d as [x y z]. cbn [v0 v1 v2] in *.
  tetra_unfold_keep_modulo. set (r := modulo {| v0 := x; v1 := y; v2 := z |}) in *.
  assert (Hq : x * x + y * y + z * z = r * r) by (symmetry; exact Hsq).
  f_equal.
  - replace (y * y + z * z - 2 * (x * x)) with (r * r - 3 * (x * x)) by lra.
    field. exact Hm.
  - replace (x * x + z * z - 2 * (y * y)) with (r * r - 3 * (y * y)) by lra.
    field. exact Hm.
  - replace (x * x + y * y - 2 * (z * z)) with (r * r - 3 * (z * z)) by lra.
    field. exact Hm.
Qed.

(** ** Dependence on the direction only *)

(** X4: for a nonzero modulus, scaling the distance by [c > 0] leaves the
    value unchanged and divides the derivative by [c]. *)
Theorem tmp_scale_invariant (c : R) (d : Vector R) :
  0 < c ->
  modulo d <> 0 ->
  tmp (vscale c d) = tmp d
  /\ myder (vscale c d) = vscale (/ c) (myder d).
Proof.
  intros Hc Hm.
  assert (Hs : modulo (vscale c d) = c * modulo d)
    by (apply modulo_vscale; lra).
  assert (Hc0 : c <> 0) by lra.
  split.
  - rewrite !tmp_product_form, Hs. unfold vscale.
    cbn [v0 v1 v2 smul R_scalar]. field. split; assumption.
  - unfold myder, t1, tt1, t2, tt2, t3, tt3, t4, tt4,
      sp1c, sp2c, sp3c, sp4c, sp1, sp2, sp3, sp4, r3, r5, d1.
    rewrite Hs. unfold vscale, vidx.
    cbn [v0 v1 v2 sadd ssub smul sdiv sneg ssqrt spow sint R_scalar].
    f_equal; field; split; assumption.
Qed.

(** X5: for a nonzero modulus, [myder] has no component along the
    distance itself. *)
Theorem myder_orthogonal_to_distance (d : Vector R) :
  modulo d <> 0 ->
  v0 d * v0 (myder d) + v1 d * v1 (myder d) + v2 d * v2 (myder d) = 0.
Proof.
  intros Hm. rewrite (myder_product_form d Hm). cbn [v0 v1 v2].
  pose proof (modulo_squared d) as Hsq.
  set (r := modulo d) in *.
  replace (v1 d * v1 d + v2 d * v2 d - 2 * (v0 d * v0 d))
    with (r * r - 3 * (v0 d * v0 d)) by lra.
  replace (v0 d * v0 d + v2 d * v2 d - 2 * (v1 d * v1 d))
    with (r * r - 3 * (v1 d * v1 d)) by lra.
  replace (v0 d * v0 d + v1 d * v1 d - 2 * (v2 d * v2 d))
    with (r * r - 3 * (v2 d * v2 d)) by lra.
  transitivity
    (72 * (v0 d * v1 d * v2 d)
     * (r * r - (v0 d * v0 d + v1 d * v1 d + v2 d * v2 d)) / r ^ 5).
  - field. exact Hm.
  - rewrite <- Hsq. field. exact Hm.
Qed.

(** ** Range *)

Lemma cube_mean_inequality (a b c : R) :
  0 <= a -> 0 <= b -> 0 <= c -> 27 * (a * b * c) <= (a + b + c) ^ 3.
Proof.
  intros Ha Hb Hc.
  pose proof (Rle_0_sqr (a - b)) as Sab.
  pose proof (Rle_0_sqr (b - c)) as Sbc.
  pose proof (Rle_0_sqr (c - a)) as Sca.
  unfold Rsqr in *.
  assert (H1 : 0 <= (a + b + c)
                    * ((a - b) * (a - b) + (b - c) * (b - c) + (c - a) * (c - a))).
  { apply Rmult_le_pos; lra. }
  assert (Ga : 0 <= a * ((b - c) * (b - c))) by (apply Rmult_le_pos; assumption).
  assert (Gb : 0 <= b * ((c - a) * (c - a))) by (apply Rmult_le_pos; assumption).
  assert (Gc : 0 <= c * ((a - b) * (a - b))) by (apply Rmult_le_pos; assumption).
  replace ((a + b + c) ^ 3)
    with (27 * (a * b * c)
          + (a + b + c)
            * ((a - b) * (a - b) + (b - c) * (b - c) + (c - a) * (c - a)) / 2
          + 3 * (a * ((b - c) * (b - c)) + b * ((c - a) * (c - a))
                 + c * ((a - b) * (a - b)))) by field.
  lra.
Qed.

Lemma modulo_diagonal_pos : modulo diagonal <> 0.
Proof.
  rewrite modulo_R. cbn [diagonal v0 v1 v2].
  apply Rgt_not_eq. apply sqrt_lt_R0. lra.
Qed.

(** X6: for a nonzero modulus, the square of the value is at most 64/3;
    the bound is reached on the body diagonal (1,1,1). *)
Theorem tmp_range (d : Vector R) :
  modulo d <> 0 ->
  tmp d ^ 2 <= 64 / 3 /\ tmp diagonal ^ 2 = 64 / 3.
Proof.
  intros Hm. split.
  - rewrite tmp_product_form.
    pose proof (modulo_squared d) as Hsq.
    pose proof (cube_mean_inequality (v0 d * v0 d) (v1 d * v1 d) (v2 d * v2 d)
                  (Rle_0_sqr _) (Rle_0_sqr _) (Rle_0_sqr _)) as Hc.
    rewrite <- Hsq in Hc.
    set (r := modulo d) in *. set (p := v0 d * v1 d * v2 d).
    assert (Hp : 27 * (p * p) <= (r * r) ^ 3).
    { replace (p * p) with (v0 d * v0 d * (v1 d * v1 d) * (v2 d * v2 d))
        by (unfold p; ring). exact Hc. }
    assert (Hr6 : 0 < (r * r) ^ 3).
    { apply pow_lt. nra. }
    replace ((24 * p / r ^ 3) ^ 2) with (576 * (p * p) / (r * r) ^ 3)
      by (field; exact Hm).
    replace (64 / 3) with (64 / 3 * (r * r) ^ 3 / (r * r) ^ 3)
      by (field; exact Hm).
    unfold Rdiv. apply Rmult_le_compat_r; [| lra].
    left. apply Rinv_0_lt_compat. exact Hr6.
  - pose proof (modulo_squared diagonal) as Hsq.
    pose proof modulo_diagonal_pos as Hm1.
    rewrite tmp_product_form. set (r := modulo diagonal) in *.
    unfold diagonal in Hsq |- * at 1 2 3. cbn [v0 v1 v2] in *.
    replace ((24 * (1 * 1 * 1) / r ^ 3) ^ 2) with (576 / (r * r) ^ 3)
      by (field; exact Hm1).
    rewrite Hsq. field.
Qed.

(** ** Symmetry *)

(** X7: for a nonzero modulus, the value is unchanged when two coordinates
    are exchanged, when the three are rotated and when two of them change
    sign; it changes sign when one coordinate changes sign. *)
Theorem tmp_symmetries (x y z : R) :
  modulo (mkVector x y z) <> 0 ->
  tmp (mkVector y x z) = tmp (mkVector x y z)
  /\ tmp (mkVector y z x) = tmp (mkVector x y z)
  /\ tmp (mkVector x (- y) (- z)) = tmp (mkVector x y z)
  /\ tmp (mkVector (- x) y z) = - tmp (mkVector x y z).
Proof.
  intros _. rewrite !tmp_product_form, !modulo_R. cbn [v0 v1 v2].
  replace (y * y + x * x + z * z) with (x * x + y * y + z * z) by ring.
  replace (y * y + z * z + x * x) with (x * x + y * y + z * z) by ring.
  replace (x * x + - y * - y + - z * - z) with (x * x + y * y + z * z) by ring.
  replace (- x * - x + y * y + z * z) with (x * x + y * y + z * z) by ring.
  repeat split; unfold Rdiv; ring.
Qed.

(** ** What [compute] accumulates *)

(** X8: for a nonzero modulus, [compute] hands to its three accumulation
    helpers, in this order, the weighted value [val * f(distance)], the
    derivative of that product with respect to the weight [val], and its
    gradient with respect to the distance. *)
Theorem compute_weighted_outputs
    (addToValue addWeightDerivative : Z -> R -> MultiValue R -> MultiValue R)
    (addVectorDerivatives : Z -> Vector R -> MultiValue R -> MultiValue R)
    (val : R) (distance : Vector R) (myvals : MultiValue R) :
  modulo distance <> 0 ->
  exists (value wder : R) (vder : Vector R),
    compute addToValue addWeightDerivative addVectorDerivatives val distance myvals
    = addVectorDerivatives 0%Z vder
        (addWeightDerivative 0%Z wder (addToValue 0%Z value myvals))
    /\ value = val * tetrahedral_formula distance
    /\ derivable_pt_lim (fun w => w * tetrahedral_formula distance) val wder
    /\ is_gradient (fun p => val * tetrahedral_formula p) distance vder.
Proof.
  intros Hm.
  exists (val * tmp distance), (tmp distance), (vscale val (myder distance)).
  split; [reflexivity|]. split; [rewrite tmp_is_formula; reflexivity|]. split.
  - apply derivable_pt_lim_eq with (l := 1 * tetrahedral_formula distance).
    + rewrite tmp_is_formula. ring.
    + apply (derivable_pt_lim_ext
               (fun w => mult_real_fct (tetrahedral_formula distance) id w)).
      * intros w. unfold mult_real_fct, id. ring.
      * apply derivable_pt_lim_eq with (l := tetrahedral_formula distance * 1);
          [ring|]. apply derivable_pt_lim_scal. apply derivable_pt_lim_id.
  - destruct (formula_gradient distance (myder distance)) as (Hx & Hy & Hz).
    { repeat split;
        [apply myder_partial_x | apply myder_partial_y | apply myder_partial_z];
        exact Hm. }
    unfold vscale. cbn [smul R_scalar].
    repeat split; unfold partial_x, partial_y, partial_z in *; cbn [v0 v1 v2];
      [ apply (derivable_pt_lim_scal _ val _ _ Hx)
      | apply (derivable_pt_lim_scal _ val _ _ Hy)
      | apply (derivable_pt_lim_scal _ val _ _ Hz) ].
Qed.

(** ** The zero distance in binary64 *)

(** X9: in binary64 arithmetic, at a distance whose three components are
    zeros of either sign, the value and the three derivative components
    are NaN: the division by the modulus is not guarded. *)
Theorem zero_distance_is_nan (sx sy sz : bool) :
  let zero (s : bool) := if s then (-0)%float else 0%float in
  let d := mkVector (zero sx) (zero sy) (zero sz) in
  PrimFloat.is_nan (tmp d) = true
  /\ PrimFloat.is_nan (v0 (myder d)) = true
  /\ PrimFloat.is_nan (v1 (myder d)) = true
  /\ PrimFloat.is_nan (v2 (myder d)) = true.
Proof. destruct sx, sy, sz; vm_compute; repeat split. Qed.
End TetrahedralMore.

(** * Further properties of [EvaluateFunctionOnGrid] *)

Module GridMore.
Import EvaluateFunctionOnGrid GridFacts.

Section Construction.
Context {D : Type}.
Implicit Types (ext : External D) (ao : ActionOptions).

Lemma first_mismatch_none_iff (a0 : Value) (rest : list Value) :
  first_mismatch a0 rest = None
  <-> Forall (fun a => getShape a = getShape a0) rest.
Proof.
  induction rest as [|ai rest IH]; cbn [first_mismatch].
  - split; [constructor | reflexivity].
  - destruct (Z.eqb_spec (getRank a0) (getRank ai)) as [Hr|Hr]; cbn [negb].
    + destruct (decide (getShape a0 = getShape ai)) as [Hs|Hs].
      * rewrite IH. split.
        -- intros Hall. constructor; [symmetry; exact Hs | exact Hall].
        -- intros Hall. inversion Hall; assumption.
      * split; [discriminate|]. intros Hall. inversion Hall; congruence.
    + split; [discriminate|]. intros Hall. inversion Hall as [|? ? Hs ?].
      exfalso. apply Hr. unfold getRank. rewrite Hs. reflexivity.
Qed.

(** What a successful construction tells about its input, in full. *)
Lemma constructor_ok_inv_input ext ao (op : Action D) :
  EvaluateFunctionOnGrid ext ao = Ok op ->
  exists (gval a0 : Value) (rest : list Value),
    ARG ao !! 0%nat = Some gval
    /\ gtype (getInfoForGridHeader ext gval) <> "fibonacci"%string
    /\ interpretArgumentList ext (argn (getInfoForGridHeader ext gval)) = a0 :: rest
    /\ first_mismatch a0 rest = None
    /\ op = constructed ext ao gval a0 rest.
Proof.
  rewrite constructor_spec.
  destruct (ARG ao) as [|gval args]; [discriminate|]. cbv zeta.
  destruct (String.eqb_spec (gtype (getInfoForGridHeader ext gval)) "fibonacci")
    as [Hf|Hf]; [discriminate|].
  destruct (interpretArgumentList _ _) as [|a0 rest] eqn:Ev; [discriminate|].
  destruct (first_mismatch a0 rest) eqn:Hm; [discriminate|].
  intros [= <-]. exists gval, a0, rest. repeat split; assumption.
Qed.

(** X10: the construction succeeds exactly when the grid argument is
    there, the grid is not of type "fibonacci", the header names at least
    one value and every further value has the shape of the first. *)
Theorem construction_succeeds_iff ext ao :
  (exists op : Action D, EvaluateFunctionOnGrid ext ao = Ok op)
  <-> exists (gval a0 : Value) (rest : list Value),
        ARG ao !! 0%nat = Some gval
        /\ gtype (getInfoForGridHeader ext gval) <> "fibonacci"%string
        /\ interpretArgumentList ext (argn (getInfoForGridHeader ext gval))
           = a0 :: rest
        /\ Forall (fun a => getShape a = getShape a0) rest.
Proof.
  split.
  - intros [op Hok].
    destruct (constructor_ok_inv_input ext ao op Hok)
      as (gval & a0 & rest & Harg & Hf & Hv & Hm & _).
    exists gval, a0, rest. repeat split; try assumption.
    apply first_mismatch_none_iff. exact Hm.
  - intros (gval & a0 & rest & Harg & Hf & Hv & Hall).
    exists (constructed ext ao gval a0 rest). rewrite constructor_spec.
    destruct (ARG ao) as [|g args]; [discriminate Harg|].
    cbn in Harg. injection Harg as ->. cbv zeta.
    destruct (String.eqb_spec (gtype (getInfoForGridHeader ext gval)) "fibonacci")
      as [Hf'|_]; [contradiction|].
    rewrite Hv. apply first_mismatch_none_iff in Hall. rewrite Hall. reflexivity.
Qed.

(** X11: a constructed object owns exactly one output; its shape is the
    shape of every value named by the grid header, it is stored with
    derivatives exactly when that shape is empty, and it is not periodic. *)
Theorem constructed_output ext ao (op : Action D) :
  EvaluateFunctionOnGrid ext ao = Ok op ->
  exists o : Output,
    outputs op = [o]
    /\ (forall (gval a : Value),
          ARG ao !! 0%nat = Some gval ->
          In a (interpretArgumentList ext (argn (getInfoForGridHeader ext gval))) ->
          getShape a = out_shape o)
    /\ (hasDerivatives o = true <-> out_shape o = [])
    /\ periodic o = Some false.
Proof.
  intros Hok.
  destruct (constructor_ok_inv_input ext ao op Hok)
    as (gval & a0 & rest & Harg & Hf & Hv & Hm & ->).
  eexists. split; [reflexivity|]. cbn [out_shape hasDerivatives periodic].
  split; [| split; [| reflexivity]].
  - intros g a Hg Hin. rewrite Harg in Hg. injection Hg as <-.
    rewrite Hv in Hin. destruct Hin as [<-|Hin]; [reflexivity|].
    apply first_mismatch_none_iff in Hm. rewrite Forall_forall in Hm.
    apply Hm. apply list_elem_of_In. exact Hin.
  - destruct (getShape a0); cbn; split; congruence.
Qed.

Lemma lookup_map_seq {A : Type} (f : nat -> A) :
  forall (n s k : nat),
    (k < n)%nat -> map f (seq s n) !! k = Some (f (s + k)%nat).
Proof.
  induction n as [|n IH]; intros s k Hk; [lia|].
  destruct k as [|k]; cbn [seq map]; rewrite lookup_cons.
  - rewrite Nat.add_0_r. reflexivity.
  - rewrite IH by lia. f_equal. f_equal. lia.
Qed.

(** X12: after a construction on a grid of rank [n] (with [n + 1] below
    [2^32]), [arg_ends] has [n + 1] entries and the entry at position [k]
    is [k + 1]. *)
Theorem constructed_arg_ends ext ao (op : Action D) (gval : Value) (k : nat) :
  EvaluateFunctionOnGrid ext ao = Ok op ->
  ARG ao !! 0%nat = Some gval ->
  getRank gval + 1 < 2 ^ 32 ->
  Z.of_nat k <= getRank gval ->
  Z.of_nat (length (arg_ends op)) = getRank gval + 1
  /\ arg_ends op !! k = Some (Z.of_nat k + 1).
Proof.
  intros Hok Harg Hsmall Hk.
  destruct (constructor_ok_inv_input ext ao op Hok)
    as (g & a0 & rest & Hg & _ & _ & _ & ->).
  rewrite Harg in Hg. injection Hg as <-.
  unfold constructed. cbn [arg_ends].
  assert (Hr : 0 <= getRank gval) by (unfold getRank; lia).
  split.
  - cbn [length]. rewrite length_map, length_seq. lia.
  - destruct k as [|k]; [reflexivity|].
    rewrite lookup_cons, lookup_map_seq by lia.
    f_equal. unfold u32. rewrite Z.mod_small by lia. lia.
Qed.

(** X13: after a construction the arguments are the grid followed by the
    values named by the header, in order; so the count [nargs] that
    [performTask] computes is the number of these values, without
    wrap-around, and at least 1. *)
Theorem constructed_arguments ext ao (op : Action D) (gval : Value) :
  EvaluateFunctionOnGrid ext ao = Ok op ->
  ARG ao !! 0%nat = Some gval ->
  let argv := interpretArgumentList ext (argn (getInfoForGridHeader ext gval)) in
  Z.of_nat (length argv) < 2 ^ 32 ->
  arguments op = gval :: argv
  /\ u32 (getNumberOfArguments op - 1) = Z.of_nat (length argv)
  /\ 1 <= u32 (getNumberOfArguments op - 1).
Proof.
  intros Hok Harg argv Hsmall.
  destruct (constructor_ok_inv_input ext ao op Hok)
    as (g & a0 & rest & Hg & _ & Hv & _ & ->).
  rewrite Harg in Hg. injection Hg as <-.
  subst argv. rewrite Hv in *. unfold constructed, getNumberOfArguments.
  cbn [arguments]. split; [reflexivity|].
  assert (Hn : u32 (Z.of_nat (length (gval :: a0 :: rest)) - 1)
               = Z.of_nat (length (a0 :: rest))).
  { unfold u32. cbn [length] in *. rewrite Z.mod_small by lia. lia. }
  rewrite Hn. split; [reflexivity|]. cbn [length]. lia.
Qed.

(** ** Which check fails first *)

Lemma first_mismatch_offender (a0 ai : Value) (pre post : list Value) :
  Forall (fun a => getShape a = getShape a0) pre ->
  getShape ai <> getShape a0 ->
  first_mismatch a0 (pre ++ ai :: post)
  = Some (if getRank a0 =? getRank ai
          then "mismatched shapes for arguments"%string
          else "mismatched ranks for arguments"%string).
Proof.
  intros Hpre Hne. induction Hpre as [|a pre Ha Hpre IH].
  - cbn [app first_mismatch].
    destruct (getRank a0 =? getRank ai); cbn [negb]; [| reflexivity].
    destruct (decide (getShape a0 = getShape ai)); [congruence | reflexivity].
  - cbn [app first_mismatch].
    assert (Hr : getRank a0 = getRank a) by (unfold getRank; rewrite Ha; reflexivity).
    rewrite <- Hr, Z.eqb_refl. cbn [negb].
    destruct (decide (getShape a0 = getShape a)) as [_|Hn]; [exact IH|].
    exfalso. apply Hn. symmetry. exact Ha.
Qed.

(** X14: on a grid that is not of type "fibonacci", the first value whose
    shape differs from the shape of the first one decides the message:
    "mismatched ranks for arguments" when its rank differs, "mismatched
    shapes for arguments" otherwise; later values are not looked at. *)
Theorem first_offender_decides_message ext ao (gval a0 ai : Value)
    (pre post : list Value) :
  ARG ao !! 0%nat = Some gval ->
  gtype (getInfoForGridHeader ext gval) <> "fibonacci"%string ->
  interpretArgumentList ext (argn (getInfoForGridHeader ext gval))
  = a0 :: pre ++ ai :: post ->
  Forall (fun a => getShape a = getShape a0) pre ->
  getShape ai <> getShape a0 ->
  EvaluateFunctionOnGrid ext ao
  = ConfigurationError
      (if getRank a0 =? getRank ai
       then "mismatched shapes for arguments"%string
       else "mismatched ranks for arguments"%string).
Proof.
  intros Harg Hf Hv Hpre Hne. rewrite constructor_spec.
  destruct (ARG ao) as [|g args]; [discriminate Harg|].
  cbn in Harg. injection Harg as ->. cbv zeta.
  destruct (String.eqb_spec (gtype (getInfoForGridHeader ext gval)) "fibonacci")
    as [Hf'|_]; [contradiction|].
  rewrite Hv, (first_mismatch_offender a0 ai pre post Hpre Hne). reflexivity.
Qed.

(** ** No sampled argument *)

(** X15: when the header names no value, no check fails and the
    constructor goes on to read [argv[0]] of an empty vector (line 77),
    which has no defined outcome. *)
Theorem no_sampled_argument_undefined ext ao (gval : Value) :
  ARG ao !! 0%nat = Some gval ->
  gtype (getInfoForGridHeader ext gval) <> "fibonacci"%string ->
  interpretArgumentList ext (argn (getInfoForGridHeader ext gval)) = [] ->
  EvaluateFunctionOnGrid ext ao = Undefined.
Proof.
  intros Harg Hf Hv. rewrite constructor_spec.
  destruct (ARG ao) as [|g args]; [discriminate Harg|].
  cbn in Harg. injection Harg as ->. cbv zeta.
  destruct (String.eqb_spec (gtype (getInfoForGridHeader ext gval)) "fibonacci")
    as [Hf'|_]; [contradiction|].
  rewrite Hv. reflexivity.
Qed.
End Construction.

(** ** The effect of a task on the buffer *)

Section Task.
Context {D : Type} `{Scalar D}.

(** X16: a task that returns has added the interpolated function value to
    the value at the stream position of output 0; the other values, the
    number of values and all derivative entries are as before. *)
Theorem performTask_effect (ext : External D) (s : Action D) (current : Z)
    (myvals myvals' : MultiValue D) :
  performTask ext s current myvals = Ok myvals' ->
  exists (out : Output) (func : D),
    outputs s !! 0%nat = Some out
    /\ func = fst (getFunctionValueAndDerivatives ext s
                     (retrieveArguments ext s myvals
                        (u32 (getNumberOfArguments s - 1)) 1))
    /\ derivatives myvals' = derivatives myvals
    /\ length (values myvals') = length (values myvals)
    /\ (forall i : nat,
          i <> Z.to_nat (getPositionInStream out) ->
          values myvals' !! i = values myvals !! i)
    /\ (forall v : D,
          values myvals !! Z.to_nat (getPositionInStream out) = Some v ->
          values myvals' !! Z.to_nat (getPositionInStream out)
          = Some (sadd v func)).
Proof.
  unfold performTask, getPntrToOutput, vector_at.
  destruct (outputs s !! 0%nat) as [out|] eqn:Hout; [| discriminate].
  destruct (getFunctionValueAndDerivatives ext s _) as [func der] eqn:Hf.
  intros Hres.
  assert (Hmv : myvals' = MV.addValue (getPositionInStream out) func myvals).
  { destruct (doNotCalculateDerivatives s); injection Hres as <-; reflexivity. }
  subst myvals'. exists out, func. unfold MV.addValue. cbn [values derivatives fst].
  split; [reflexivity|]. split; [reflexivity|]. split; [reflexivity|].
  split; [apply length_alter|]. split.
  - intros i Hi. apply list_lookup_alter_ne. congruence.
  - intros v Hv. rewrite list_lookup_alter, Hv.
    destruct (decide _) as [_|Hn]; [reflexivity | contradiction].
Qed.
End Task.
End GridMore.

(** * Properties of [Tetrahedral::expandShortcut] *)

Module ShortcutFacts.
Import TetrahedralShortcut.

Lemma append_inj_l (a s1 s2 : string) :
  (a ++ s1)%string = (a ++ s2)%string -> s1 = s2.
Proof.
  induction a as [|c a IH]; [exact (fun E => E)|].
  change (String c (a ++ s1) = String c (a ++ s2) -> s1 = s2).
  intros [= E]. exact (IH E).
Qed.

Lemma append_empty_r (a : string) : (a ++ "")%string = a.
Proof.
  induction a as [|c a IH]; [reflexivity|].
  change (String c (a ++ "") = String c a). rewrite IH. reflexivity.
Qed.

Lemma strip_colon_append (lab : string) :
  strip_colon (lab ++ ":")%string = Some lab.
Proof.
  induction lab as [|c lab IH]; [reflexivity|].
  change (strip_colon (String c (lab ++ ":")) = Some (String c lab)).
  cbn [strip_colon]. rewrite IH.
  destruct (lab ++ ":")%string eqn:E; [| reflexivity].
  destruct lab; discriminate E.
Qed.

Lemma append_assoc (a b c : string) :
  ((a ++ b) ++ c)%string = (a ++ (b ++ c))%string.
Proof.
  induction a as [|x a IH]; [reflexivity|].
  change (String x ((a ++ b) ++ c) = String x (a ++ (b ++ c))).
  rewrite IH. reflexivity.
Qed.

Lemma labels_distinct (lab : string) :
  NoDup [lab; (lab ++ "_denom")%string; (lab ++ "_n")%string].
Proof.
  assert (H1 : lab <> (lab ++ "_denom")%string).
  { intros E. rewrite <- (append_empty_r lab) in E at 1.
    apply append_inj_l in E. discriminate E. }
  assert (H2 : lab <> (lab ++ "_n")%string).
  { intros E. rewrite <- (append_empty_r lab) in E at 1.
    apply append_inj_l in E. discriminate E. }
  assert (H3 : (lab ++ "_denom")%string <> (lab ++ "_n")%string).
  { intros E. apply append_inj_l in E. discriminate E. }
  repeat constructor; rewrite ?elem_of_cons, ?elem_of_nil; tauto.
Qed.

(** X17: [expandShortcut] appends three action lines to the result of the
    matrix expansion and passes [lab_n] to the function expansion.  The
    lines are a TETRAHEDRAL action labelled [lab], a COORDINATIONNUMBER
    action labelled [lab_denom] and a MATHEVAL action labelled [lab_n]
    that divides (FUNC=x/y) the first by the second; the first two take
    the weight [lab_mat.w]; the three labels are pairwise distinct for
    every [lab]. *)
Theorem expandShortcut_block
    (expandMatrix :
       bool -> string -> list string -> gmap string string ->
       list (list string) -> list (list string))
    (expandFunctions :
       string -> string -> string -> list string -> gmap string string ->
       list (list string) -> list (list string))
    (lab : string) (words : list string) (keys : gmap string string)
    (actions : list (list string)) :
  exists l1 l2 l3 : list string,
    expandShortcut expandMatrix expandFunctions lab words keys actions
    = expandFunctions lab (lab ++ "_n")%string ""%string words keys
        (expandMatrix true lab words keys actions ++ [l1; l2; l3])
    /\ l1 = [ (lab ++ ":")%string; "TETRAHEDRAL"%string;
              ("WEIGHT=" ++ lab ++ "_mat.w")%string;
              ("VECTORS1=" ++ lab ++ "_mat.x")%string;
              ("VECTORS2=" ++ lab ++ "_mat.y")%string;
              ("VECTORS3=" ++ lab ++ "_mat.z")%string ]
    /\ l2 = [ (lab ++ "_denom:")%string; "COORDINATIONNUMBER"%string;
              ("WEIGHT=" ++ lab ++ "_mat.w")%string ]
    /\ l3 = [ (lab ++ "_n:")%string; "MATHEVAL"%string;
              ("ARG1=" ++ lab)%string; ("ARG2=" ++ lab ++ "_denom")%string;
              "FUNC=x/y"%string; "PERIODIC=NO"%string ]
    /\ action_label l1 = Some lab
    /\ action_label l2 = Some (lab ++ "_denom")%string
    /\ action_label l3 = Some (lab ++ "_n")%string
    /\ NoDup [lab; (lab ++ "_denom")%string; (lab ++ "_n")%string].
Proof.
  exists (input lab), (d_input lab), (me_input lab).
  split.
  { unfold expandShortcut. rewrite <- !app_assoc. reflexivity. }
  split; [reflexivity|]. split; [reflexivity|]. split; [reflexivity|].
  split; [apply strip_colon_append|].
  split.
  { unfold d_input, action_label.
    change "_denom:"%string with ("_denom" ++ ":")%string.
    rewrite <- append_assoc. apply strip_colon_append. }
  split.
  { unfold me_input, action_label.
    change "_n:"%string with ("_n" ++ ":")%string.
    rewrite <- append_assoc. apply strip_colon_append. }
  apply labels_distinct.
Qed.
End ShortcutFacts.

(** * The further properties on sample inputs *)

Module MoreSamples.
Import Tetrahedral TetrahedralFacts TetrahedralMore.
Import EvaluateFunctionOnGrid GridFacts GridMore Samples.
Local Open Scope R_scope.

Lemma unit_x_on_plane : v0 unit_x = 0 \/ v1 unit_x = 0 \/ v2 unit_x = 0.
Proof. right. left. reflexivity. Qed.

Lemma modulo_unit_x_nonzero : modulo unit_x <> 0.
Proof. rewrite modulo_unit_x. lra. Qed.

Lemma tmp_zero_on_coordinate_planes_witness :
  modulo unit_x <> 0
  /\ (v0 unit_x = 0 \/ v1 unit_x = 0 \/ v2 unit_x = 0) /\ tmp unit_x = 0.
Proof.
  split; [exact modulo_unit_x_nonzero|]. split; [exact unit_x_on_plane|].
  exact (tmp_zero_on_coordinate_planes unit_x modulo_unit_x_nonzero unit_x_on_plane).
Defined.

Lemma myder_product_form_witness :
  modulo diagonal <> 0
  /\ v0 (myder diagonal) = 24 * 1 * 1 * (1 * 1 + 1 * 1 - 2 * (1 * 1)) / modulo diagonal ^ 5.
Proof.
  split; [exact modulo_diagonal_pos|].
  exact (f_equal v0 (myder_product_form diagonal modulo_diagonal_pos)).
Defined.

Lemma tmp_scale_invariant_witness :
  0 < 2 /\ modulo diagonal <> 0 /\ tmp (vscale 2 diagonal) = tmp diagonal.
Proof.
  split; [exact Rlt_0_2|]. split; [exact modulo_diagonal_pos|].
  exact (proj1 (tmp_scale_invariant 2 diagonal Rlt_0_2 modulo_diagonal_pos)).
Defined.

Lemma myder_orthogonal_to_distance_witness :
  modulo diagonal <> 0
  /\ v0 diagonal * v0 (myder diagonal) + v1 diagonal * v1 (myder diagonal)
     + v2 diagonal * v2 (myder diagonal) = 0.
Proof.
  split; [exact modulo_diagonal_pos|].
  exact (myder_orthogonal_to_distance diagonal modulo_diagonal_pos).
Defined.

Lemma tmp_range_witness :
  modulo diagonal <> 0 /\ tmp diagonal ^ 2 <= 64 / 3.
Proof.
  split; [exact modulo_diagonal_pos|].
  exact (proj1 (tmp_range diagonal modulo_diagonal_pos)).
Defined.

Lemma tmp_symmetries_witness :
  modulo (mkVector 1 1 1) <> 0
  /\ tmp (mkVector (- 1) 1 1) = - tmp (mkVector 1 1 1).
Proof.
  split; [exact modulo_diagonal_pos|].
  exact (proj2 (proj2 (proj2 (tmp_symmetries 1 1 1 modulo_diagonal_pos)))).
Defined.

Lemma compute_weighted_outputs_witness :
  modulo diagonal <> 0
  /\ exists (value wder : R) (vder : Vector R),
      compute (fun _ _ mv => mv) (fun _ _ mv => mv) (fun _ _ mv => mv)
        2 diagonal (mkMultiValue [] ∅)
      = mkMultiValue [] ∅
      /\ value = 2 * tetrahedral_formula diagonal
      /\ derivable_pt_lim (fun w => w * tetrahedral_formula diagonal) 2 wder
      /\ is_gradient (fun p => 2 * tetrahedral_formula p) diagonal vder.
Proof.
  split; [exact modulo_diagonal_pos|].
  exact (compute_weighted_outputs
           (fun _ _ mv => mv) (fun _ _ mv => mv) (fun _ _ mv => mv)
           2 diagonal (mkMultiValue [] ∅) modulo_diagonal_pos).
Defined.

Local Open Scope Z_scope.

Lemma sample_construction :
  EvaluateFunctionOnGrid (external "flat" [d1; d3] [] 0 []) options
  = Ok (constructed (external "flat" [d1; d3] [] 0 []) options grid d1 [d3]).
Proof. vm_compute. reflexivity. Qed.

Lemma constructed_output_witness :
  EvaluateFunctionOnGrid (external "flat" [d1; d3] [] 0 []) options
  = Ok (constructed (external "flat" [d1; d3] [] 0 []) options grid d1 [d3])
  /\ exists o : Output,
      outputs (constructed (external "flat" [d1; d3] [] 0 []) options grid d1 [d3])
      = [o]
      /\ out_shape o = [10]
      /\ hasDerivatives o = false.
Proof.
  split; [exact sample_construction|].
  destruct (constructed_output (external "flat" [d1; d3] [] 0 []) options _
              sample_construction)
    as (o & Ho & Hshape & Hder & _).
  exists o. split; [exact Ho|]. split.
  - symmetry. apply (Hshape grid d1 eq_refl). left. reflexivity.
  - injection Ho as <-. reflexivity.
Defined.

Lemma grid_rank_small : getRank grid + 1 < 2 ^ 32.
Proof. reflexivity. Qed.

Lemma two_le_grid_rank : Z.of_nat 2 <= getRank grid.
Proof. discriminate. Qed.

Lemma constructed_arg_ends_witness :
  EvaluateFunctionOnGrid (external "flat" [d1; d3] [] 0 []) options
  = Ok (constructed (external "flat" [d1; d3] [] 0 []) options grid d1 [d3])
  /\ arg_ends (constructed (external "flat" [d1; d3] [] 0 []) options grid d1 [d3])
     !! 2%nat = Some 3.
Proof.
  split; [exact sample_construction|].
  exact (proj2 (constructed_arg_ends (external "flat" [d1; d3] [] 0 []) options
                  _ grid 2 sample_construction eq_refl
                  grid_rank_small two_le_grid_rank)).
Defined.

Lemma two_arguments_small : Z.of_nat (length [d1; d3]) < 2 ^ 32.
Proof. reflexivity. Qed.

Lemma constructed_arguments_witness :
  EvaluateFunctionOnGrid (external "flat" [d1; d3] [] 0 []) options
  = Ok (constructed (external "flat" [d1; d3] [] 0 []) options grid d1 [d3])
  /\ arguments (constructed (external "flat" [d1; d3] [] 0 []) options grid d1 [d3])
     = [grid; d1; d3]
  /\ u32 (getNumberOfArguments
            (constructed (external "flat" [d1; d3] [] 0 []) options grid d1 [d3]) - 1)
     = 2.
Proof.
  split; [exact sample_construction|].
  destruct (constructed_arguments (external "flat" [d1; d3] [] 0 []) options
              _ grid sample_construction eq_refl two_arguments_small)
    as (Ha & Hn & _).
  split; [exact Ha | exact Hn].
Defined.

Lemma d3_like_d1 : Forall (fun a => getShape a = getShape d1) [d3].
Proof. repeat constructor. Qed.

Lemma m1_unlike_d1 : getShape m1 <> getShape d1.
Proof. discriminate. Qed.

Lemma flat_is_not_fibonacci : "flat"%string <> "fibonacci"%string.
Proof. discriminate. Qed.

Lemma first_offender_decides_message_witness :
  EvaluateFunctionOnGrid (external "flat" [d1; d3; m1; d2] [] 0 []) options
  = ConfigurationError "mismatched ranks for arguments".
Proof.
  exact (first_offender_decides_message
           (external "flat" [d1; d3; m1; d2] [] 0 []) options grid d1 m1 [d3] [d2]
           eq_refl flat_is_not_fibonacci eq_refl d3_like_d1 m1_unlike_d1).
Defined.

Lemma no_sampled_argument_undefined_witness :
  EvaluateFunctionOnGrid (external "flat" [] [] 0 []) options = Undefined.
Proof.
  exact (no_sampled_argument_undefined (external "flat" [] [] 0 []) options grid
           eq_refl flat_is_not_fibonacci eq_refl).
Defined.

Lemma performTask_sample :
  performTask interpolation (constructed interpolation options grid x1 []) 0 fresh
  = Ok (mkMultiValue [1.5%float] ∅).
Proof. reflexivity. Qed.

Lemma performTask_effect_witness :
  performTask interpolation (constructed interpolation options grid x1 []) 0 fresh
  = Ok (mkMultiValue [1.5%float] ∅)
  /\ derivatives (mkMultiValue [1.5%float] (∅ : gmap (Z * Z) float))
     = derivatives fresh.
Proof.
  split; [reflexivity|].
  destruct (performTask_effect interpolation
              (constructed interpolation options grid x1 []) 0 fresh
              (mkMultiValue [1.5%float] ∅) performTask_sample)
    as (out & func & _ & _ & Hd & _).
  exact Hd.
Defined.
End MoreSamples.
